(** * privacy_protector.guards: response parsers and backend selector

    A shallow embedding of [src/privacy_protector/guards.py].  The parsers
    work on dynamically typed values (the result of [json.loads], SDK
    response objects), so the embedding carries a small model of Python
    values, of the exceptions the parsers can meet, and of the string methods
    they call. *)

From Stdlib Require Import ZArith List String Ascii Bool Lia.
From Stdlib Require Import Floats DecimalString.
Import ListNotations.

Set Warnings "-register-all,-inexact-float".

Local Open Scope Z_scope.
Local Open Scope string_scope.

(** ** Python values *)

(** The exceptions that occur in the module.  [JSONDecodeError] and
    [KeyError] are the two the parsers catch. *)
Inductive exn : Type :=
| JSONDecodeError
| KeyError
| AttributeError
| TypeError
| IndexError
| RecursionError
| ValueError (msg : string).

(** A statement or expression either completes with a value or raises. *)
Inductive outcome (A : Type) : Type :=
| Return (a : A)
| Raise (e : exn).
Arguments Return {A} a.
Arguments Raise {A} e.

(** The values [json.loads] can produce.  A [str] is a [string] with one
    [ascii] per character (code points below 256); a [dict] is an
    association list in insertion order, looked up from the front. *)
Inductive pyval : Type :=
| PNone
| PBool (b : bool)
| PInt (n : Z)
| PFloat (f : float)
| PStr (s : string)
| PList (l : list pyval)
| PDict (d : list (string * pyval)).

Definition dict : Type := list (string * pyval).

Module Py.

(** [d.get(key)]: the value stored under [key], if any. *)
Fixpoint lookup (d : dict) (key : string) : option pyval :=
  match d with
  | [] => None
  | (k, v) :: d' => if String.eqb k key then Some v else lookup d' key
  end.

(** [d.get(key, default)] on a dict [d]. *)
Definition dict_get (d : dict) (key : string) (default : pyval) : pyval :=
  match lookup d key with
  | Some v => v
  | None => default
  end.

(** [d[key] = v]: an existing key keeps its place. *)
Fixpoint dict_set (d : dict) (key : string) (v : pyval) : dict :=
  match d with
  | [] => [(key, v)]
  | (k, w) :: d' =>
      if String.eqb k key then (k, v) :: d' else (k, w) :: dict_set d' key v
  end.

(** [x.get]: only a dict has the attribute. *)
Definition as_dict (x : pyval) : outcome dict :=
  match x with
  | PDict d => Return d
  | _ => Raise AttributeError
  end.

(** [for item in x]: lists yield their items, dicts their keys, strings
    their characters; the other values are not iterable. *)
Definition iter (x : pyval) : outcome (list pyval) :=
  match x with
  | PList l => Return l
  | PDict d => Return (map (fun kv => PStr (fst kv)) d)
  | PStr s => Return (map (fun c => PStr (String c EmptyString)) (list_ascii_of_string s))
  | _ => Raise TypeError
  end.

(** [isinstance(x, list)] *)
Definition is_list (x : pyval) : bool :=
  match x with
  | PList _ => true
  | _ => false
  end.

(** Truth value of [x] in a condition. *)
Definition truthy (x : pyval) : bool :=
  match x with
  | PNone => false
  | PBool b => b
  | PInt n => negb (Z.eqb n 0)
  | PFloat f => negb (PrimFloat.eqb f 0%float)
  | PStr s => negb (String.eqb s "")
  | PList l => match l with [] => false | _ => true end
  | PDict d => match d with [] => false | _ => true end
  end.

(** [len(x)] *)
Definition len (x : pyval) : outcome Z :=
  match x with
  | PStr s => Return (Z.of_nat (String.length s))
  | PList l => Return (Z.of_nat (List.length l))
  | PDict d => Return (Z.of_nat (List.length d))
  | _ => Raise TypeError
  end.

(** An [int] as a [float] (exact below 2^53). *)
Definition float_of_Z (n : Z) : float :=
  if Z.ltb n 0 then PrimFloat.opp (PrimFloat.of_uint63 (Uint63.of_Z (- n)))
  else PrimFloat.of_uint63 (Uint63.of_Z n).

(** [x >= 0] *)
Definition ge0 (x : pyval) : outcome bool :=
  match x with
  | PInt n => Return (Z.leb 0 n)
  | PBool _ => Return true
  | PFloat f => Return (PrimFloat.leb 0%float f)
  | _ => Raise TypeError
  end.

(** [x + n] for an [int] [n]; the parsers reach it only after [x >= 0]
    succeeded, so [x] is a number. *)
Definition add_int (x : pyval) (n : Z) : outcome pyval :=
  match x with
  | PInt m => Return (PInt (m + n))
  | PBool b => Return (PInt ((if b then 1 else 0) + n))
  | PFloat f => Return (PFloat (PrimFloat.add f (float_of_Z n)))
  | _ => Raise TypeError
  end.

(** [c.lower()] on one character: A-Z and the upper-case letters of the
    Latin-1 block (U+00C0-U+00DE without the multiplication sign). *)
Definition lower_char (c : ascii) : ascii :=
  let n := nat_of_ascii c in
  if ((65 <=? n) && (n <=? 90) || (192 <=? n) && (n <=? 222) && negb (n =? 215))%nat
  then ascii_of_nat (n + 32)
  else c.

(** [s.lower()] *)
Fixpoint lower (s : string) : string :=
  match s with
  | EmptyString => EmptyString
  | String c s' => String (lower_char c) (lower s')
  end.

(** [str.find] scanning [text] from position [i]: the lowest index at which
    [value] starts, or -1. *)
Fixpoint find_from (value text : string) (i : Z) : Z :=
  if String.prefix value text then i
  else match text with
       | EmptyString => -1
       | String _ text' => find_from value text' (i + 1)
       end.

(** [text.find(value)] for two strings. *)
Definition find (text value : string) : Z := find_from value text 0.

(** [text.find(value)] for an arbitrary argument: a [TypeError] unless it is
    a [str]. *)
Definition str_find (text : string) (value : pyval) : outcome Z :=
  match value with
  | PStr v => Return (find text v)
  | _ => Raise TypeError
  end.

(** [x in xs] for strings. *)
Definition str_in (x : string) (xs : list string) : bool :=
  existsb (String.eqb x) xs.

(** [s.rstrip(c)] for a single character [c]: [s] without the run of [c] at
    its end. *)
Fixpoint rstrip (s : string) (c : ascii) : string :=
  match s with
  | EmptyString => EmptyString
  | String a s' =>
      match rstrip s' c with
      | EmptyString => if Ascii.eqb a c then EmptyString else String a EmptyString
      | r => String a r
      end
  end.

(** A slice bound as [s[a:b]] reads it for a string of length [n]: a
    negative bound counts from the end, and the result is kept within
    0..[n]. *)
Definition slice_bound (n i : Z) : Z :=
  let i' := if Z.ltb i 0 then i + n else i in
  Z.max 0 (Z.min n i').

(** [s[a:b]] for two [int] bounds. *)
Definition slice (s : string) (a b : Z) : string :=
  let n := Z.of_nat (String.length s) in
  let a' := slice_bound n a in
  let b' := slice_bound n b in
  String.substring (Z.to_nat a') (Z.to_nat (b' - a')) s.

End Py.

(** ** The [json] module

    [json.loads] belongs to the Python standard library, not to this
    repository.  The parsers take the decoder as the interface [JSON]: a
    document decodes to a value, or the decoder raises, a
    [json.JSONDecodeError] when it rejects the document or another exception
    (a [ValueError] for an integer beyond the digit limit of [int], a
    [RecursionError] for nesting beyond the recursion limit).  The
    properties of the parsers are proved for every decoder; [json.decoder]
    below is a concrete one, on which the parsers are run on concrete
    payloads. *)
Class JSON : Type := { decode : string -> outcome pyval }.

Module json.

(** [json.loads(x)]: a [TypeError] unless [x] is a [str]. *)
Definition loads `{JSON} (x : pyval) : outcome pyval :=
  match x with
  | PStr s => decode s
  | _ => Raise TypeError
  end.

(** The double quote, which a string literal of this file cannot hold. *)
Definition dquote : ascii := ascii_of_nat 34.

(** JSON text written with apostrophes in place of double quotes. *)
Fixpoint text (s : string) : string :=
  match s with
  | EmptyString => EmptyString
  | String c s' => String (if Ascii.eqb c "'" then dquote else c) (text s')
  end.

Definition is_ws (c : ascii) : bool :=
  existsb (Ascii.eqb c) [" "; "009"; "010"; "013"]%char.

Fixpoint skip_ws (s : string) : string :=
  match s with
  | String c s' => if is_ws c then skip_ws s' else s
  | EmptyString => s
  end.

Definition digit (c : ascii) : option Z :=
  let n := nat_of_ascii c in
  if ((48 <=? n) && (n <=? 57))%nat then Some (Z.of_nat (n - 48)) else None.

Definition hexdigit (c : ascii) : option nat :=
  let n := nat_of_ascii c in
  if ((48 <=? n) && (n <=? 57))%nat then Some (n - 48)%nat
  else if ((65 <=? n) && (n <=? 70))%nat then Some (n - 55)%nat
  else if ((97 <=? n) && (n <=? 102))%nat then Some (n - 87)%nat
  else None.

(** The longest run of decimal digits at the front of [s]: the number it
    extends [acc] to, how many digits it has, and the rest of [s]. *)
Fixpoint digits (s : string) (acc : Z) (count : Z) : Z * Z * string :=
  match s with
  | String c s' =>
      match digit c with
      | Some d => digits s' (10 * acc + d) (count + 1)
      | None => (acc, count, s)
      end
  | EmptyString => (acc, count, s)
  end.

(** [s] without its prefix [p], when it has it. *)
Fixpoint strip (p s : string) : option string :=
  match p, s with
  | EmptyString, _ => Some s
  | String a p', String b s' => if Ascii.eqb a b then strip p' s' else None
  | String _ _, EmptyString => None
  end.

(** The binary64 nearest to [m * 10^e] for [m > 0], ties to even, as Python's
    [float] reads a decimal numeral.  A negative [e] divides with enough
    extra bits and a sticky bit for the remainder. *)
Definition float_of_decimal (neg : bool) (m e : Z) : float :=
  SF2Prim
    (if Z.eqb m 0 then S754_zero neg
     else if Z.leb 0 e then
       binary_normalize prec emax (if neg then - (m * 10 ^ e) else m * 10 ^ e) 0 neg
     else
       let d := 10 ^ (- e) in
       let s := Z.max 0 (Z.log2 d - Z.log2 m + 60) in
       let q := (m * 2 ^ s) / d in
       let sticky := if Z.eqb ((m * 2 ^ s) mod d) 0 then 0 else 1 in
       let y := 2 * q + sticky in
       binary_normalize prec emax (if neg then - y else y) (- s - 1) neg).

(** What a scanner makes of the front of a text: a value and the rest of
    the text, a rejection ([json.JSONDecodeError]), or another exception
    raised on the way. *)
Inductive scanned (A : Type) : Type :=
| Scanned (a : A) (rest : string)
| Rejected
| Failed (e : exn).
Arguments Scanned {A} a rest.
Arguments Rejected {A}.
Arguments Failed {A} e.

(** The default of [sys.get_int_max_str_digits()]: the longest decimal
    numeral [int] converts. *)
Definition int_max_str_digits : Z := 4300.

(** The message of the [ValueError] of [int] for a numeral of [n] digits. *)
Definition int_limit_message (n : Z) : string :=
  "Exceeds the limit (4300 digits) for integer string conversion: value has "
  ++ NilZero.string_of_int (Z.to_int n)
  ++ " digits; use sys.set_int_max_str_digits() to increase the limit".

(** A number: an optional minus sign, then 0 or a run of digits that does
    not start with 0, then an optional fraction (a dot and at least one
    digit) and an optional exponent (e or E, an optional sign, at least one
    digit).  It is an [int] without fraction and exponent and a [float]
    otherwise.  An [int] of more than [int_max_str_digits] digits is not
    converted: [int] raises a [ValueError]. *)
Definition number (s : string) : scanned pyval :=
  let '(neg, s1) :=
    match s with
    | String "-" t => (true, t)
    | _ => (false, s)
    end in
  match s1 with
  | EmptyString => Rejected
  | String c t =>
      match digit c with
      | None => Rejected
      | Some d0 =>
          let '(int_part, n, r1) := if Z.eqb d0 0 then (0, 1, t) else digits t d0 1 in
          let '(frac, r2) :=
            match r1 with
            | String "." (String c2 _ as u) =>
                match digit c2 with
                | Some _ => let '(m, k, r) := digits u int_part 0 in (Some (m, k), r)
                | None => (None, r1)
                end
            | _ => (None, r1)
            end in
          let '(exp, r3) :=
            match r2 with
            | String x u =>
                if (Ascii.eqb x "e" || Ascii.eqb x "E")%bool then
                  let '(eneg, v) :=
                    match u with
                    | String "-" w => (true, w)
                    | String "+" w => (false, w)
                    | _ => (false, u)
                    end in
                  match v with
                  | String c3 _ =>
                      match digit c3 with
                      | Some _ =>
                          let '(ev, _, r) := digits v 0 0 in
                          (Some (if eneg then - ev else ev), r)
                      | None => (None, r2)
                      end
                  | EmptyString => (None, r2)
                  end
                else (None, r2)
            | EmptyString => (None, r2)
            end in
          match frac, exp with
          | None, None =>
              if Z.ltb int_max_str_digits n then Failed (ValueError (int_limit_message n))
              else Scanned (PInt (if neg then - int_part else int_part)) r3
          | _, _ =>
              let '(m, k) := match frac with Some mk => mk | None => (int_part, 0) end in
              let e := match exp with Some e => e | None => 0 end in
              Scanned (PFloat (float_of_decimal neg m (e - k))) r3
          end
      end
  end.

(** The body of a string after its opening quote, up to the closing one.
    Control characters are rejected; an escape [\uXXXX] of a code point
    above 255, which a [string] of this model cannot hold, is rejected too. *)
Fixpoint scanstring (s : string) : option (string * string) :=
  match s with
  | EmptyString => None
  | String c s' =>
      if Ascii.eqb c dquote then Some ("", s')
      else if Ascii.eqb c "\" then
        match s' with
        | EmptyString => None
        | String e s'' =>
            let simple (x : ascii) :=
              match scanstring s'' with
              | Some (r, rest) => Some (String x r, rest)
              | None => None
              end in
            if Ascii.eqb e dquote then simple dquote
            else if Ascii.eqb e "\" then simple "\"%char
            else if Ascii.eqb e "/" then simple "/"%char
            else if Ascii.eqb e "b" then simple "008"%char
            else if Ascii.eqb e "f" then simple "012"%char
            else if Ascii.eqb e "n" then simple "010"%char
            else if Ascii.eqb e "r" then simple "013"%char
            else if Ascii.eqb e "t" then simple "009"%char
            else if Ascii.eqb e "u" then
              match s'' with
              | String h1 (String h2 (String h3 (String h4 s4))) =>
                  match hexdigit h1, hexdigit h2, hexdigit h3, hexdigit h4 with
                  | Some 0%nat, Some 0%nat, Some a, Some b =>
                      match scanstring s4 with
                      | Some (r, rest) => Some (String (ascii_of_nat (16 * a + b)) r, rest)
                      | None => None
                      end
                  | _, _, _, _ => None
                  end
              | _ => None
              end
            else None
        end
      else if (nat_of_ascii c <? 32)%nat then None
      else
        match scanstring s' with
        | Some (r, rest) => Some (String c r, rest)
        | None => None
        end
  end.

(** One JSON value at the front of [s].  [fuel] bounds the depth of the
    calls; each call reads at least one character before it calls again, and
    [decode_document] starts with one more than the length of the document.
    The depth of the nesting itself is not limited: where CPython gives up
    with a [RecursionError] depends on the recursion limit and the stack in
    use at the call, and no payload run in this file nests deeper than
    three levels. *)
Fixpoint value (fuel : nat) (s : string) : scanned pyval :=
  match fuel with
  | O => Rejected
  | S fuel' =>
      match s with
      | EmptyString => Rejected
      | String c s' =>
          if Ascii.eqb c dquote then
            match scanstring s' with
            | Some (r, rest) => Scanned (PStr r) rest
            | None => Rejected
            end
          else if Ascii.eqb c "[" then
            match skip_ws s' with
            | String "]" rest => Scanned (PList []) rest
            | s1 =>
                match elements fuel' s1 with
                | Scanned l rest => Scanned (PList l) rest
                | Rejected => Rejected
                | Failed e => Failed e
                end
            end
          else if Ascii.eqb c "{" then
            match skip_ws s' with
            | String "}" rest => Scanned (PDict []) rest
            | s1 =>
                match members fuel' s1 [] with
                | Scanned d rest => Scanned (PDict d) rest
                | Rejected => Rejected
                | Failed e => Failed e
                end
            end
          else
            match strip "null" s, strip "true" s, strip "false" s with
            | Some rest, _, _ => Scanned PNone rest
            | _, Some rest, _ => Scanned (PBool true) rest
            | _, _, Some rest => Scanned (PBool false) rest
            | _, _, _ =>
                match number s with
                | Scanned v rest => Scanned v rest
                | Failed e => Failed e
                | Rejected =>
                    match strip "NaN" s, strip "Infinity" s, strip "-Infinity" s with
                    | Some rest, _, _ => Scanned (PFloat nan) rest
                    | _, Some rest, _ => Scanned (PFloat infinity) rest
                    | _, _, Some rest => Scanned (PFloat neg_infinity) rest
                    | _, _, _ => Rejected
                    end
                end
            end
      end
  end

(** The items of an array from the first one to the closing bracket. *)
with elements (fuel : nat) (s : string) : scanned (list pyval) :=
  match fuel with
  | O => Rejected
  | S fuel' =>
      match value fuel' s with
      | Rejected => Rejected
      | Failed e => Failed e
      | Scanned v r =>
          match skip_ws r with
          | String "]" rest => Scanned [v] rest
          | String "," r' =>
              match elements fuel' (skip_ws r') with
              | Scanned l rest => Scanned (v :: l) rest
              | Rejected => Rejected
              | Failed e => Failed e
              end
          | _ => Rejected
          end
      end
  end

(** The members of an object from the first key to the closing brace, added
    to [acc] in order (a repeated key keeps its place and takes the later
    value). *)
with members (fuel : nat) (s : string) (acc : dict) : scanned dict :=
  match fuel with
  | O => Rejected
  | S fuel' =>
      match s with
      | String c s' =>
          if Ascii.eqb c dquote then
            match scanstring s' with
            | None => Rejected
            | Some (k, r) =>
                match skip_ws r with
                | String ":" r1 =>
                    match value fuel' (skip_ws r1) with
                    | Rejected => Rejected
                    | Failed e => Failed e
                    | Scanned v r2 =>
                        let acc' := Py.dict_set acc k v in
                        match skip_ws r2 with
                        | String "}" rest => Scanned acc' rest
                        | String "," r3 => members fuel' (skip_ws r3) acc'
                        | _ => Rejected
                        end
                    end
                | _ => Rejected
                end
            end
          else Rejected
      | EmptyString => Rejected
      end
  end.

(** A whole document: one value between optional white space. *)
Definition decode_document (s : string) : outcome pyval :=
  match value (S (String.length s)) (skip_ws s) with
  | Scanned v rest =>
      match skip_ws rest with
      | EmptyString => Return v
      | _ => Raise JSONDecodeError
      end
  | Rejected => Raise JSONDecodeError
  | Failed e => Raise e
  end.

Definition decoder : JSON := {| decode := decode_document |}.

End json.

(** ** [detectors]: the match record and the category enumeration

    [guards.py] imports [PIIMatch] and [PIIType] from the [detectors] module.
    The parsers only build matches and name categories. *)

(** Modelled from the spec: the enumeration [detectors.PIIType], whose
    declaration is in the [detectors] module.  The members are the twelve
    categories the spec lists (name, email, phone, address,
    social-security-number, credit-card, date, ip-address, driver-license,
    passport, bank-account, custom), under the names [guards.py] uses. *)
Inductive PIIType : Type :=
| NAME | EMAIL | PHONE | ADDRESS | SSN | CREDIT_CARD | DATE | IP_ADDRESS
| DRIVER_LICENSE | PASSPORT | BANK_ACCOUNT | CUSTOM.

(** Modelled from the spec: the record [detectors.PIIMatch], whose
    declaration is in the [detectors] module: category, value, start and end
    offsets and confidence, stored as the parser passes them. *)
Record PIIMatch : Type := {
  pii_type : PIIType;
  value : pyval;
  start : pyval;
  end_ : pyval;
  confidence : float
}.

(** Result from an LLM Guard check. *)
Record GuardResult : Type := {
  matches : list PIIMatch;
  raw_response : option dict;
  model_used : option string
}.

(** ** Statements

    A parser appends to its local list [matches] while it runs and may raise
    in the middle: a block of statements is a function from the list so far
    to an outcome and the list after it. *)
Definition M (A : Type) : Type := list PIIMatch -> outcome A * list PIIMatch.

Definition ret {A : Type} (a : A) : M A := fun ms => (Return a, ms).

Definition bind {A B : Type} (m : M A) (k : A -> M B) : M B :=
  fun ms =>
    match m ms with
    | (Return a, ms') => k a ms'
    | (Raise e, ms') => (Raise e, ms')
    end.

(** An expression, which does not touch [matches]. *)
Definition eval {A : Type} (o : outcome A) : M A := fun ms => (o, ms).

(** [matches.append(m)] *)
Definition append (m : PIIMatch) : M unit := fun ms => (Return tt, (ms ++ [m])%list).

Declare Scope py_scope.
Delimit Scope py_scope with py.
Notation "x <- m ;; k" := (bind m (fun x => k))
  (at level 61, m at next level, right associativity) : py_scope.

(** [for x in xs: body] *)
Fixpoint for_each {A : Type} (xs : list A) (body : A -> M unit) : M unit :=
  match xs with
  | [] => ret tt
  | x :: xs' => bind (body x) (fun _ => for_each xs' body)
  end.

(** [try: body / except (json.JSONDecodeError, KeyError): pass] *)
Definition try_except_pass (body : M unit) : M unit :=
  fun ms =>
    match body ms with
    | (Raise JSONDecodeError, ms') => (Return tt, ms')
    | (Raise KeyError, ms') => (Return tt, ms')
    | r => r
    end.

(** [type_map.get(key, default)] for a table with string keys. *)
Fixpoint table_get {A : Type} (table : list (string * A)) (key : string) (default : A) : A :=
  match table with
  | [] => default
  | (k, v) :: table' => if String.eqb k key then v else table_get table' key default
  end.

(** [list(table.keys())] *)
Definition keys {A : Type} (table : list (string * A)) : list string := map fst table.

Local Open Scope py_scope.

(** ** [LlamaGuard] *)
Module LlamaGuard.

Record instance : Type := { base_url : string; model : string }.

(** [__init__]: the attributes it sets, without the HTTP client. *)
Definition __init__ (base_url model : string) : instance :=
  {| base_url := Py.rstrip base_url "/"; model := model |}.

(** The address [detect] posts to: [f"{self.base_url}/api/generate"]. *)
Definition generate_url (self : instance) : string :=
  base_url self ++ "/api/generate".

Definition type_map : list (string * PIIType) :=
  [ ("name", NAME);
    ("email", EMAIL);
    ("phone", PHONE);
    ("address", ADDRESS);
    ("ssn", SSN);
    ("social_security", SSN);
    ("credit_card", CREDIT_CARD);
    ("date", DATE);
    ("date_of_birth", DATE);
    ("dob", DATE);
    ("ip", IP_ADDRESS);
    ("ip_address", IP_ADDRESS) ].

(** Map LLM type string to PIIType.  [type_str.lower()] raises on a value
    that is not a [str]. *)
Definition _map_type (type_str : pyval) : outcome PIIType :=
  match type_str with
  | PStr s => Return (table_get type_map (Py.lower s) CUSTOM)
  | _ => Raise AttributeError
  end.

(** The body of [for item in pii_list]. *)
Definition loop_body (text : string) (item : pyval) : M unit :=
  d <- eval (Py.as_dict item) ;;
  pii_type <- eval (_map_type (Py.dict_get d "type" (PStr ""))) ;;
  let value := Py.dict_get d "value" (PStr "") in
  start <- eval (Py.str_find text value) ;;
  if Z.leb 0 start then
    n <- eval (Py.len value) ;;
    append {| pii_type := pii_type;
              value := value;
              start := PInt start;
              end_ := PInt (start + n);
              confidence := 0.85%float |}
  else ret tt.

Definition _parse_response `{JSON} (self : instance) (text : string) (response : dict)
  : outcome GuardResult :=
  let body :=
    content <- ret (Py.dict_get response "response" (PStr "[]")) ;;
    pii_list <- eval (json.loads content) ;;
    items <- eval (Py.iter pii_list) ;;
    for_each items (loop_body text) in
  match try_except_pass body [] with
  | (Return _, matches) =>
      Return {| matches := matches;
                raw_response := Some response;
                model_used := Some (model self) |}
  | (Raise e, _) => Raise e
  end.

End LlamaGuard.

(** ** [BedrockGuard] *)
Module BedrockGuard.

Definition type_map : list (string * PIIType) :=
  [ ("NAME", NAME);
    ("EMAIL", EMAIL);
    ("PHONE", PHONE);
    ("ADDRESS", ADDRESS);
    ("SSN", SSN);
    ("US_SOCIAL_SECURITY_NUMBER", SSN);
    ("CREDIT_DEBIT_NUMBER", CREDIT_CARD);
    ("IP_ADDRESS", IP_ADDRESS);
    ("DATE_TIME", DATE);
    ("DRIVER_ID", DRIVER_LICENSE);
    ("PASSPORT_NUMBER", PASSPORT);
    ("BANK_ACCOUNT_NUMBER", BANK_ACCOUNT) ].

(** Map Bedrock PII type to PIIType.  The lookup hashes its key: a list or a
    dict is unhashable, any other value that is not a key of the table gets
    the default. *)
Definition _map_bedrock_type (bedrock_type : pyval) : outcome PIIType :=
  match bedrock_type with
  | PStr s => Return (table_get type_map s CUSTOM)
  | PList _ | PDict _ => Raise TypeError
  | _ => Return CUSTOM
  end.

(** The body of [for entity in pii_entities]. *)
Definition entity_body (entity : pyval) : M unit :=
  e <- eval (Py.as_dict entity) ;;
  let entity_type := Py.dict_get e "type" (PStr "UNKNOWN") in
  pii_type <- eval (_map_bedrock_type entity_type) ;;
  append {| pii_type := pii_type;
            value := Py.dict_get e "match" (PStr "");
            start := PInt 0;
            end_ := PInt 0;
            confidence := 0.95%float |}.

(** The body of [for assessment in assessments]. *)
Definition assessment_body (assessment : pyval) : M unit :=
  a <- eval (Py.as_dict assessment) ;;
  let sensitive_info := Py.dict_get a "sensitiveInformationPolicy" (PDict []) in
  s <- eval (Py.as_dict sensitive_info) ;;
  let pii_entities := Py.dict_get s "piiEntities" (PList []) in
  entities <- eval (Py.iter pii_entities) ;;
  for_each entities entity_body.

(** The body of [for output in outputs]. *)
Definition output_body (output : pyval) : M unit :=
  o <- eval (Py.as_dict output) ;;
  let assessments := Py.dict_get o "assessments" (PList []) in
  items <- eval (Py.iter assessments) ;;
  for_each items assessment_body.

Definition _parse_response (text : string) (response : dict) : outcome GuardResult :=
  let body :=
    let outputs := Py.dict_get response "outputs" (PList []) in
    items <- eval (Py.iter outputs) ;;
    for_each items output_body in
  match body [] with
  | (Return _, matches) =>
      Return {| matches := matches;
                raw_response := Some response;
                model_used := Some "bedrock-guardrails" |}
  | (Raise e, _) => Raise e
  end.

End BedrockGuard.

(** The result objects of the analyzer library, by the attributes [detect]
    reads: the entity type, the offsets and the score. *)
Module RecognizerResult.

Record t : Type := { entity_type : string; start : Z; end_ : Z; score : float }.

End RecognizerResult.

(** ** [PresidioGuard]

    [detect] works on the result objects of the analyzer library, which the
    instance's analyzer returns. *)
Module PresidioGuard.

Definition type_map : list (string * PIIType) :=
  [ ("PERSON", NAME);
    ("EMAIL_ADDRESS", EMAIL);
    ("PHONE_NUMBER", PHONE);
    ("LOCATION", ADDRESS);
    ("US_SSN", SSN);
    ("CREDIT_CARD", CREDIT_CARD);
    ("IP_ADDRESS", IP_ADDRESS);
    ("DATE_TIME", DATE);
    ("US_DRIVER_LICENSE", DRIVER_LICENSE);
    ("US_PASSPORT", PASSPORT);
    ("US_BANK_NUMBER", BANK_ACCOUNT);
    ("IBAN_CODE", BANK_ACCOUNT) ].

(** Map Presidio entity type to PIIType. *)
Definition _map_presidio_type (presidio_type : pyval) : outcome PIIType :=
  match presidio_type with
  | PStr s => Return (table_get type_map s CUSTOM)
  | PList _ | PDict _ => Raise TypeError
  | _ => Return CUSTOM
  end.

(** The instance, with the analyzer as the function from the text and the
    language to the results [analyze] returns. *)
Record instance : Type := {
  analyzer : string -> string -> list RecognizerResult.t;
  language : string
}.

(** The body of [for result in results]. *)
Definition loop_body (text : string) (result : RecognizerResult.t) : M unit :=
  pii_type <- eval (_map_presidio_type (PStr (RecognizerResult.entity_type result))) ;;
  append {| pii_type := pii_type;
            value := PStr (Py.slice text (RecognizerResult.start result)
                                    (RecognizerResult.end_ result));
            start := PInt (RecognizerResult.start result);
            end_ := PInt (RecognizerResult.end_ result);
            confidence := RecognizerResult.score result |}.

(** Detect PII using Presidio. *)
Definition detect (self : instance) (text : string) : outcome GuardResult :=
  let results := analyzer self text (language self) in
  match for_each results (loop_body text) [] with
  | (Return _, matches) =>
      Return {| matches := matches;
                raw_response := None;
                model_used := Some "presidio" |}
  | (Raise e, _) => Raise e
  end.

End PresidioGuard.

(** ** [OpenAIGuard] *)
Module OpenAIGuard.

Record instance : Type := { api_key : option string; model : string }.

(** The part of the SDK's chat completion object the parser reads:
    [response.choices[0].message.content], a [str] or [None]. *)
Record ChatCompletionMessage : Type := { content : pyval }.
Record Choice : Type := { message : ChatCompletionMessage }.
Record ChatCompletion : Type := { choices : list Choice }.

(** [response.choices[0].message.content] *)
Definition first_content (response : ChatCompletion) : outcome pyval :=
  match choices response with
  | c :: _ => Return (content (message c))
  | [] => Raise IndexError
  end.

Definition type_map : list (string * PIIType) :=
  [ ("name", NAME);
    ("email", EMAIL);
    ("phone", PHONE);
    ("address", ADDRESS);
    ("ssn", SSN);
    ("credit_card", CREDIT_CARD);
    ("date", DATE);
    ("ip_address", IP_ADDRESS) ].

(** Map type string to PIIType. *)
Definition _map_type (type_str : pyval) : outcome PIIType :=
  match type_str with
  | PStr s => Return (table_get type_map (Py.lower s) CUSTOM)
  | _ => Raise AttributeError
  end.

(** The body of [for item in pii_list].  The default of each [get] is
    evaluated before the call, whether the key is present or not. *)
Definition loop_body (text : string) (item : pyval) : M unit :=
  d <- eval (Py.as_dict item) ;;
  pii_type <- eval (_map_type (Py.dict_get d "type" (PStr ""))) ;;
  let value := Py.dict_get d "value" (PStr "") in
  found <- eval (Py.str_find text value) ;;
  let start := Py.dict_get d "start" (PInt found) in
  ok <- eval (Py.ge0 start) ;;
  default_end <-
    (if ok : bool then
       n <- eval (Py.len value) ;;
       eval (Py.add_int start n)
     else ret (PInt 0)) ;;
  let end_ := Py.dict_get d "end" default_end in
  if Py.truthy value then
    ok' <- eval (Py.ge0 start) ;;
    if ok' : bool then
      append {| pii_type := pii_type;
                value := value;
                start := start;
                end_ := end_;
                confidence := 0.90%float |}
    else ret tt
  else ret tt.

(** [content.get("pii", content.get("results", content))] *)
Definition select_pii_list (content : pyval) : outcome pyval :=
  match content with
  | PDict d => Return (Py.dict_get d "pii" (Py.dict_get d "results" content))
  | _ => Raise AttributeError
  end.

Definition _parse_response `{JSON} (self : instance) (text : string)
    (response : ChatCompletion) : outcome GuardResult :=
  let body :=
    raw <- eval (first_content response) ;;
    content <- eval (json.loads raw) ;;
    pii_list <- eval (select_pii_list content) ;;
    if Py.is_list pii_list then
      items <- eval (Py.iter pii_list) ;;
      for_each items (loop_body text)
    else ret tt in
  match try_except_pass body [] with
  | (Return _, matches) =>
      match first_content response with
      | Return raw =>
          Return {| matches := matches;
                    raw_response := Some [("content", raw)];
                    model_used := Some (model self) |}
      | Raise e => Raise e
      end
  | (Raise e, _) => Raise e
  end.

End OpenAIGuard.

(** ** [get_guard] *)

(** The guard classes a provider name can select. *)
Inductive guard_class : Type :=
| LlamaGuard_class | BedrockGuard_class | PresidioGuard_class | OpenAIGuard_class.

(** The factories of [get_guard], by the class each one constructs. *)
Definition providers : list (string * guard_class) :=
  [ ("llama", LlamaGuard_class);
    ("llama-guard", LlamaGuard_class);
    ("bedrock", BedrockGuard_class);
    ("aws", BedrockGuard_class);
    ("presidio", PresidioGuard_class);
    ("openai", OpenAIGuard_class);
    ("gpt", OpenAIGuard_class) ].

(** [providers.get(key)] *)
Fixpoint providers_lookup (table : list (string * guard_class)) (key : string)
  : option guard_class :=
  match table with
  | [] => None
  | (k, c) :: table' => if String.eqb k key then Some c else providers_lookup table' key
  end.

(** How Python prints a list of strings that hold no quote, backslash or
    control character, as the provider names are. *)
Definition repr_str_list (l : list string) : string :=
  "[" ++ String.concat ", " (map (fun s => "'" ++ s ++ "'") l) ++ "]".

(** What [get_guard] does with a provider name: return [None], or go on to
    the call [providers[provider]()] of the factory of a class, or raise its
    own [ValueError].  [Construct c] is the call of the constructor of [c]
    with the keyword arguments: [get_guard] returns the instance it returns,
    and an exception of the constructor (a missing or unknown keyword, a
    client library that is not installed) leaves [get_guard] as it is.  The
    constructors are not part of [get_guard]; an outcome [Raise] below is the
    [ValueError] that [get_guard] itself raises, before any constructor is
    called. *)
Inductive selection : Type :=
| NoGuard
| Construct (c : guard_class).

Definition get_guard (provider : string) : outcome selection :=
  let provider := Py.lower provider in
  if Py.str_in provider ["regex"; "none"; ""] then Return NoGuard
  else
    match providers_lookup providers provider with
    | None =>
        Raise (ValueError ("Unknown guard provider: " ++ provider
                           ++ ". Supported: " ++ repr_str_list (keys providers)))
    | Some c => Return (Construct c)
    end.

(** * Vocabulary of the properties *)

(** ** Strings *)

(** [v] occurs in [t] at index [i]. *)
Definition occurs_at (v t : string) (i : Z) : Prop :=
  exists pre post, t = pre ++ v ++ post /\ Z.of_nat (String.length pre) = i.

(** [v] is a literal substring of [t]. *)
Definition occurs_in (v t : string) : Prop :=
  exists pre post, t = pre ++ v ++ post.

(** All the indices at which [v] occurs in [t], counted from [i]: a check
    that can be run on concrete strings. *)
Fixpoint occurrences_from (v t : string) (i : Z) : list Z :=
  ((if String.prefix v t then [i] else []) ++
   match t with
   | EmptyString => []
   | String _ t' => occurrences_from v t' (i + 1)
   end)%list.

(** No two of the strings [ks] differ only in case. *)
Definition case_distinct (ks : list string) : bool :=
  forallb (fun k => forallb (fun k' => implb (String.eqb (Py.lower k') (Py.lower k))
                                             (String.eqb k' k)) ks) ks.

(** ** Exceptions *)

(** The exceptions the parsers do not catch when an operation on a value
    raises. *)
Definition uncaught (e : exn) : Prop := e = AttributeError \/ e = TypeError.

(** An expression that, when it raises, raises one of those. *)
Definition raises_uncaught {A : Type} (o : outcome A) : Prop :=
  forall e, o = Raise e -> uncaught e.

(** ** Records and results *)

(** The record the local-model parser builds for value [v] found at [i]. *)
Definition llama_match (c : PIIType) (v : string) (i : Z) : PIIMatch :=
  {| pii_type := c;
     value := PStr v;
     start := PInt i;
     end_ := PInt (i + Z.of_nat (String.length v));
     confidence := 0.85%float |}.

(** A record of the local-model parser: the value is a string found in the
    text, the span is the one of its first occurrence, the confidence is
    0.85. *)
Definition llama_record (text : string) (m : PIIMatch) : Prop :=
  confidence m = 0.85%float
  /\ exists v, value m = PStr v
               /\ 0 <= Py.find text v
               /\ start m = PInt (Py.find text v)
               /\ end_ m = PInt (Py.find text v + Z.of_nat (String.length v)).

(** The matches of a result, or the exception raised instead. *)
Definition result_matches (o : outcome GuardResult) : outcome (list PIIMatch) :=
  match o with
  | Return r => Return (matches r)
  | Raise e => Raise e
  end.

(** The model identifier of a result, or the exception raised instead. *)
Definition result_model (o : outcome GuardResult) : outcome (option string) :=
  match o with
  | Return r => Return (model_used r)
  | Raise e => Raise e
  end.

(** Two payload items that are equal, or are objects that agree on every key
    but [start] and [end]. *)
Definition same_except_span (x y : pyval) : Prop :=
  x = y
  \/ exists d d', x = PDict d /\ y = PDict d'
                  /\ forall k, k <> "start" -> k <> "end" -> Py.lookup d k = Py.lookup d' k.

(** ** The walk of the managed-cloud response *)

(** The objects the walk reaches in a response: the outputs, their
    assessments, and the entities of their policies. *)
Definition output_in (response o : dict) : Prop :=
  exists outputs,
    Py.iter (Py.dict_get response "outputs" (PList [])) = Return outputs
    /\ In (PDict o) outputs.

Definition assessment_in (response a : dict) : Prop :=
  exists o assessments,
    output_in response o
    /\ Py.iter (Py.dict_get o "assessments" (PList [])) = Return assessments
    /\ In (PDict a) assessments.

Definition entity_in (response e : dict) : Prop :=
  exists a s entities,
    assessment_in response a
    /\ Py.dict_get a "sensitiveInformationPolicy" (PDict []) = PDict s
    /\ Py.iter (Py.dict_get s "piiEntities" (PList [])) = Return entities
    /\ In (PDict e) entities.

(** A record made from an entity of the response: no span, the entity's
    [match] as its value, the entity's mapped type as its category. *)
Definition bedrock_record (response : dict) (m : PIIMatch) : Prop :=
  start m = PInt 0 /\ end_ m = PInt 0 /\ confidence m = 0.95%float
  /\ exists e, entity_in response e
               /\ value m = Py.dict_get e "match" (PStr "")
               /\ BedrockGuard._map_bedrock_type (Py.dict_get e "type" (PStr "UNKNOWN"))
                  = Return (pii_type m).

(** ** Sample inputs *)

Definition llama_guard3 : LlamaGuard.instance :=
  {| LlamaGuard.base_url := "http://localhost:11434"; LlamaGuard.model := "llama-guard3" |}.

Definition gpt_4o_mini : OpenAIGuard.instance :=
  {| OpenAIGuard.api_key := None; OpenAIGuard.model := "gpt-4o-mini" |}.

(** The local-model backend's response whose [response] field is the JSON
    text [s], written with apostrophes. *)
Definition llama_response (s : string) : dict := [("response", PStr (json.text s))].

(** The hosted-LLM backend's response whose first message has the JSON text
    [s], written with apostrophes, as its content. *)
Definition openai_response (s : string) : OpenAIGuard.ChatCompletion :=
  {| OpenAIGuard.choices :=
       [ {| OpenAIGuard.message := {| OpenAIGuard.content := PStr (json.text s) |} |} ] |}.

(** A guardrail response with one entity, in an output whose second
    assessment has no policy. *)
Definition bedrock_sample : dict :=
  [("outputs",
    PList [PDict [("assessments",
                   PList [PDict [("sensitiveInformationPolicy",
                                  PDict [("piiEntities",
                                          PList [PDict [("type", PStr "NAME");
                                                        ("match", PStr "John Smith")]])])];
                          PDict []])]])].

(** ** Vocabulary of the further properties *)

(** The string of [k] characters [c]. *)
Fixpoint repeat_char (c : ascii) (k : nat) : string :=
  match k with
  | O => EmptyString
  | S k' => String c (repeat_char c k')
  end.

(** [s] ends with the character [c]. *)
Definition ends_with (s : string) (c : ascii) : Prop :=
  exists p, s = p ++ String c EmptyString.

(** A block of statements that only appends to [matches]: its outcome and
    what it appends do not depend on the list it starts from. *)
Definition framed {A : Type} (m : M A) : Prop :=
  forall ms, m ms = (fst (m []), (ms ++ snd (m []))%list).

(** The span of a record lies in the text and holds the record's value:
    [0 <= start <= end <= len(text)] and [text[start:end]] is the value. *)
Definition located (text : string) (m : PIIMatch) : Prop :=
  exists v i,
    value m = PStr v /\ start m = PInt i
    /\ end_ m = PInt (i + Z.of_nat (String.length v))
    /\ 0 <= i /\ i + Z.of_nat (String.length v) <= Z.of_nat (String.length text)
    /\ Py.slice text i (i + Z.of_nat (String.length v)) = v.

(** The record the analyzer-library backend builds from one result. *)
Definition presidio_match (text : string) (r : RecognizerResult.t) : PIIMatch :=
  {| pii_type := table_get PresidioGuard.type_map (RecognizerResult.entity_type r) CUSTOM;
     value := PStr (Py.slice text (RecognizerResult.start r) (RecognizerResult.end_ r));
     start := PInt (RecognizerResult.start r);
     end_ := PInt (RecognizerResult.end_ r);
     confidence := RecognizerResult.score r |}.

(** The record the managed-cloud parser builds from an entity whose type
    can be looked up. *)
Definition bedrock_match (e : dict) : PIIMatch :=
  {| pii_type :=
       match BedrockGuard._map_bedrock_type (Py.dict_get e "type" (PStr "UNKNOWN")) with
       | Return c => c
       | Raise _ => CUSTOM
       end;
     value := Py.dict_get e "match" (PStr "");
     start := PInt 0;
     end_ := PInt 0;
     confidence := 0.95%float |}.

(** A guardrail response with two entities, the second without a type, and
    the objects it nests. *)
Definition sample_entities : list dict :=
  [ [("type", PStr "NAME"); ("match", PStr "John Smith")]; [("match", PStr "x")] ].

Definition sample_policy : dict := [("piiEntities", PList (map PDict sample_entities))].

Definition sample_assessment : dict := [("sensitiveInformationPolicy", PDict sample_policy)].

Definition sample_output : dict := [("assessments", PList [PDict sample_assessment])].

Definition sample_guardrail_response : dict := [("outputs", PList [PDict sample_output])].

(** A local-model response whose one item has a [start] of [n] digits. *)
Definition long_start_response (n : nat) : dict :=
  [("response",
    PStr (json.text "[{'type':'name','value':'John','start':" ++ repeat_char "1" n ++ "}]"))].

(** An output of a guardrail response with one entity, an e-mail address. *)
Definition sample_output_email : dict :=
  [("assessments",
    PList [PDict [("sensitiveInformationPolicy",
                   PDict [("piiEntities",
                           PList [PDict [("type", PStr "EMAIL");
                                         ("match", PStr "john@example.com")]])])]])].

(** * Properties *)

(** ** Searching a string *)

Lemma occurs_at_in v t i : occurs_at v t i -> occurs_in v t.
Proof. intros (pre & post & E & _). now exists pre, post. Qed.

Lemma prefix_append v post : String.prefix v (v ++ post) = true.
Proof.
  induction v as [|c v IH]; simpl.
  - now destruct post.
  - destruct (ascii_dec c c) as [_|N]; [exact IH | now elim N].
Qed.

Lemma prefix_split v t : String.prefix v t = true -> exists post, t = v ++ post.
Proof.
  revert t. induction v as [|c v IH]; intros t H.
  - now exists t.
  - destruct t as [|b t]; simpl in H; [discriminate|].
    destruct (ascii_dec c b) as [->|_]; [|discriminate].
    destruct (IH _ H) as [post ->]. now exists post.
Qed.

Lemma occurs_at_0 v t : occurs_at v t 0 <-> String.prefix v t = true.
Proof.
  split.
  - intros (pre & post & -> & L). destruct pre; [|simpl in L; lia].
    simpl. apply prefix_append.
  - intros H. destruct (prefix_split _ _ H) as [post ->].
    now exists "", post.
Qed.

Lemma occurs_at_nonneg v t i : occurs_at v t i -> 0 <= i.
Proof. intros (pre & _ & _ & <-). lia. Qed.

Lemma occurs_at_cons v c t i :
  occurs_at v (String c t) i <->
  (i = 0 /\ String.prefix v (String c t) = true) \/ (0 < i /\ occurs_at v t (i - 1)).
Proof.
  split.
  - intros (pre & post & E & L). destruct pre as [|b pre].
    + left. simpl in L. split; [lia|]. simpl in E. rewrite E. apply prefix_append.
    + right. simpl in E, L. injection E as _ E. split; [lia|].
      exists pre, post. split; [exact E | lia].
  - intros [[-> H] | [Hi (pre & post & -> & L)]].
    + now apply occurs_at_0.
    + exists (String c pre), post. split; [reflexivity | simpl String.length; lia].
Qed.

Lemma find_from_eq value text i :
  Py.find_from value text i =
  if String.prefix value text then i
  else match text with
       | EmptyString => -1
       | String _ text' => Py.find_from value text' (i + 1)
       end.
Proof. now destruct text. Qed.

(** [find_from] returns -1 when [value] does not occur, and otherwise the
    start position plus the lowest index of an occurrence. *)
Lemma find_from_spec value text i :
  (Py.find_from value text i = -1 /\ forall j, ~ occurs_at value text j)
  \/ (exists k, Py.find_from value text i = i + k /\ occurs_at value text k
                /\ forall j, occurs_at value text j -> k <= j).
Proof.
  revert i. induction text as [|c t IH]; intros i; rewrite find_from_eq.
  - destruct (String.prefix value "") eqn:P.
    + right. exists 0. split; [lia|]. split; [now apply occurs_at_0|].
      intros j. apply occurs_at_nonneg.
    + left. split; [reflexivity|]. intros j (pre & post & E & _).
      destruct pre; [|discriminate]. destruct value; [discriminate P | discriminate E].
  - destruct (String.prefix value (String c t)) eqn:P.
    + right. exists 0. split; [lia|]. split; [now apply occurs_at_0|].
      intros j. apply occurs_at_nonneg.
    + destruct (IH (i + 1)) as [[E N] | (k & E & O & Min)].
      * left. split; [exact E|]. intros j Hj.
        apply occurs_at_cons in Hj as [[_ Q] | [_ Q]]; [congruence|].
        eapply N, Q.
      * right. exists (k + 1). split; [lia|]. split.
        -- apply occurs_at_cons. right. pose proof (occurs_at_nonneg _ _ _ O).
           split; [lia|]. now replace (k + 1 - 1) with k by lia.
        -- intros j Hj. apply occurs_at_cons in Hj as [[_ Q] | [_ Q]]; [congruence|].
           specialize (Min _ Q). lia.
Qed.

(** [text.find(value)] is the lowest index at which [value] occurs. *)
Lemma find_lowest text value i :
  occurs_at value text i -> (forall j, occurs_at value text j -> i <= j) ->
  Py.find text value = i.
Proof.
  intros O Min. unfold Py.find.
  destruct (find_from_spec value text 0) as [[_ N] | (k & E & Ok & Mk)].
  - exfalso. eapply N, O.
  - specialize (Min _ Ok). specialize (Mk _ O). lia.
Qed.

(** [text.find(value)] is -1 exactly when [value] is no substring of [text]. *)
Lemma find_absent text value :
  Py.find text value = -1 <-> ~ occurs_in value text.
Proof.
  unfold Py.find.
  destruct (find_from_spec value text 0) as [[E N] | (k & E & Ok & Mk)].
  - split; [|intros _; lia]. intros _ (pre & post & H).
    eapply N. exists pre, post. split; [exact H | reflexivity].
  - pose proof (occurs_at_nonneg _ _ _ Ok). split; [lia|].
    intros N. elim N. eapply occurs_at_in, Ok.
Qed.

Lemma find_range text value : -1 <= Py.find text value.
Proof.
  unfold Py.find.
  destruct (find_from_spec value text 0) as [[E _] | (k & E & Ok & _)]; [lia|].
  pose proof (occurs_at_nonneg _ _ _ Ok). lia.
Qed.

(** A found index is an occurrence. *)
Lemma find_occurs text value :
  0 <= Py.find text value -> occurs_at value text (Py.find text value).
Proof.
  unfold Py.find.
  destruct (find_from_spec value text 0) as [[E _] | (k & E & Ok & _)]; [lia|].
  intros _. now replace (Py.find_from value text 0) with k by lia.
Qed.

(** ** Loops *)

Lemma for_each_app {A : Type} (body : A -> M unit) xs ys ms :
  for_each (xs ++ ys)%list body ms = bind (for_each xs body) (fun _ => for_each ys body) ms.
Proof.
  revert ms. induction xs as [|x xs IH]; intros ms; simpl.
  - reflexivity.
  - unfold bind. destruct (body x ms) as [[[]|e] ms1]; [|reflexivity].
    rewrite IH. reflexivity.
Qed.

(** A loop whose body leaves [matches] alone on one item skips that item. *)
Lemma for_each_skip {A : Type} (body : A -> M unit) xs x ys ms :
  (forall ms', body x ms' = (Return tt, ms')) ->
  for_each (xs ++ x :: ys)%list body ms = for_each (xs ++ ys)%list body ms.
Proof.
  intros Hx. rewrite !for_each_app. unfold bind.
  destruct (for_each xs body ms) as [[[]|e] ms1]; [|reflexivity].
  simpl. unfold bind. rewrite Hx. reflexivity.
Qed.

(** An invariant of the matches that every body keeps is kept by the loop. *)
Lemma for_each_invariant {A : Type} (P : PIIMatch -> Prop) (body : A -> M unit) xs :
  (forall x, In x xs -> forall ms, Forall P ms -> Forall P (snd (body x ms))) ->
  forall ms, Forall P ms -> Forall P (snd (for_each xs body ms)).
Proof.
  induction xs as [|x xs IH]; intros Hb ms Hms; simpl.
  - exact Hms.
  - unfold bind. pose proof (Hb x (or_introl eq_refl) ms Hms) as H1.
    destruct (body x ms) as [[[]|e] ms1]; simpl in *; [|exact H1].
    apply IH; [|exact H1]. intros y Hy. apply Hb. now right.
Qed.

(** What a body appends when it completes is in the list the loop ends
    with, if the loop completes. *)
Lemma for_each_emits {A : Type} (body : A -> M unit) xs x ys m :
  (forall ms, body x ms = (Return tt, ms ++ [m])%list) ->
  (forall y ms, exists l, snd (body y ms) = (ms ++ l)%list) ->
  forall ms ms', for_each (xs ++ x :: ys)%list body ms = (Return tt, ms') -> In m ms'.
Proof.
  intros Hx Hext ms ms'. rewrite for_each_app. unfold bind.
  destruct (for_each xs body ms) as [[[]|e] ms1]; [|discriminate].
  simpl. unfold bind. rewrite Hx.
  assert (G : forall zs ms2, In m ms2 -> In m (snd (for_each zs body ms2))).
  { induction zs as [|z zs IH]; intros ms2 Hin; simpl; [exact Hin|].
    unfold bind. destruct (Hext z ms2) as [l Hl].
    destruct (body z ms2) as [[[]|e] ms3]; simpl in *; subst ms3.
    - apply IH, in_or_app. now left.
    - apply in_or_app. now left. }
  intros E. specialize (G ys (ms1 ++ [m])%list). rewrite E in G. apply G.
  apply in_or_app. right. now left.
Qed.

(** The item at which a loop raises. *)
Lemma for_each_raise {A : Type} (body : A -> M unit) xs ms e ms' :
  for_each xs body ms = (Raise e, ms') ->
  exists x ms1, In x xs /\ body x ms1 = (Raise e, ms').
Proof.
  revert ms. induction xs as [|x xs IH]; intros ms E; simpl in E; [discriminate|].
  unfold bind in E. destruct (body x ms) as [[[]|e1] ms1] eqn:B.
  - destruct (IH _ E) as (y & ms2 & Hy & By). exists y, ms2. split; [now right | exact By].
  - injection E as <- <-. exists x, ms. split; [now left | exact B].
Qed.

(** ** Exceptions

    The operations on values raise [AttributeError] or [TypeError] only,
    neither of which the parsers catch. *)

Lemma uncaught_not_caught e : uncaught e -> e <> JSONDecodeError /\ e <> KeyError.
Proof. intros [-> | ->]; split; discriminate. Qed.

Lemma as_dict_raises x : raises_uncaught (Py.as_dict x).
Proof. intros e. destruct x; simpl; intros [= <-]; now left. Qed.

Lemma iter_raises x : raises_uncaught (Py.iter x).
Proof. intros e. destruct x; simpl; intros [= <-]; now right. Qed.

Lemma str_find_raises text x : raises_uncaught (Py.str_find text x).
Proof. intros e. destruct x; simpl; intros [= <-]; now right. Qed.

Lemma len_raises x : raises_uncaught (Py.len x).
Proof. intros e. destruct x; simpl; intros [= <-]; now right. Qed.

Lemma ge0_raises x : raises_uncaught (Py.ge0 x).
Proof. intros e. destruct x; simpl; intros [= <-]; now right. Qed.

Lemma add_int_raises x n : raises_uncaught (Py.add_int x n).
Proof. intros e. destruct x; simpl; intros [= <-]; now right. Qed.

Lemma llama_map_type_raises x : raises_uncaught (LlamaGuard._map_type x).
Proof. intros e. destruct x; simpl; intros [= <-]; now left. Qed.

Lemma openai_map_type_raises x : raises_uncaught (OpenAIGuard._map_type x).
Proof. intros e. destruct x; simpl; intros [= <-]; now left. Qed.

Create HintDb py_raises.

#[local] Hint Resolve as_dict_raises iter_raises str_find_raises len_raises ge0_raises
  add_int_raises llama_map_type_raises openai_map_type_raises : py_raises.

(** Decompose a block that raised: the first call that did not complete is
    one of the operations above. *)
Ltac raised H :=
  repeat match type of H with
         | context [match ?o with Return _ => _ | Raise _ => _ end] =>
             let E := fresh "E" in
             destruct o eqn:E;
             [ | injection H as <- _;
                 match type of E with ?c = Raise _ => 
                   let R := fresh in
                   assert (R : raises_uncaught c) by auto with py_raises;
                   exact (R _ E)
                 end ]
         | context [if ?b then _ else _] => destruct b
         end;
  try discriminate H.

Lemma llama_body_raises text item ms e ms' :
  LlamaGuard.loop_body text item ms = (Raise e, ms') -> uncaught e.
Proof.
  unfold LlamaGuard.loop_body, bind, eval, ret, append. intros B. raised B.
Qed.

Lemma openai_body_raises text item ms e ms' :
  OpenAIGuard.loop_body text item ms = (Raise e, ms') -> uncaught e.
Proof.
  unfold OpenAIGuard.loop_body, bind, eval, ret, append. intros B. raised B.
Qed.

(** ** The local-model parser *)

(** The loop body on an item with a string value and a string (or no) type:
    a record at the first occurrence of the value, or nothing. *)
Lemma llama_body_str text d ty v ms :
  Py.dict_get d "type" (PStr "") = PStr ty ->
  Py.dict_get d "value" (PStr "") = PStr v ->
  LlamaGuard.loop_body text (PDict d) ms =
  if Z.leb 0 (Py.find text v)
  then (Return tt,
        (ms ++ [llama_match (table_get LlamaGuard.type_map (Py.lower ty) CUSTOM) v
                            (Py.find text v)])%list)
  else (Return tt, ms).
Proof.
  intros Hty Hv. unfold LlamaGuard.loop_body, bind, eval, ret, append. simpl.
  rewrite Hty, Hv. simpl. now destruct (Z.leb 0 (Py.find text v)).
Qed.

(** The loop body only ever appends to [matches]. *)
Lemma llama_body_extends text item ms :
  exists l, snd (LlamaGuard.loop_body text item ms) = (ms ++ l)%list.
Proof.
  unfold LlamaGuard.loop_body, bind, eval, ret, append.
  destruct (Py.as_dict item) as [d|e]; [|exists []; now rewrite app_nil_r].
  destruct (LlamaGuard._map_type _) as [c|e]; [|exists []; now rewrite app_nil_r].
  destruct (Py.str_find _ _) as [i|e]; [|exists []; now rewrite app_nil_r].
  destruct (Z.leb 0 i); [|exists []; now rewrite app_nil_r].
  destruct (Py.len _) as [n|e]; [|exists []; now rewrite app_nil_r].
  eexists. reflexivity.
Qed.

Lemma dict_get_lookup d key default v :
  Py.lookup d key = Some v -> Py.dict_get d key default = v.
Proof. unfold Py.dict_get. now intros ->. Qed.

Lemma dict_get_missing d key default :
  Py.lookup d key = None -> Py.dict_get d key default = default.
Proof. unfold Py.dict_get. now intros ->. Qed.

(** The local-model parser on a payload that decodes to a list: the loop
    over the items decides the result. *)
Lemma llama_parse_list `{JSON} self text response content items :
  Py.dict_get response "response" (PStr "[]") = PStr content ->
  decode content = Return (PList items) ->
  LlamaGuard._parse_response self text response =
  match for_each items (LlamaGuard.loop_body text) [] with
  | (Return _, ms) =>
      Return {| matches := ms; raw_response := Some response;
                model_used := Some (LlamaGuard.model self) |}
  | (Raise e, _) => Raise e
  end.
Proof.
  intros Hc Hd. unfold LlamaGuard._parse_response, try_except_pass, bind, eval, ret.
  rewrite Hc. simpl. rewrite Hd. simpl.
  destruct (for_each items (LlamaGuard.loop_body text) []) as [[[]|e] ms] eqn:E.
  - reflexivity.
  - apply for_each_raise in E as (x & ms1 & _ & B).
    apply llama_body_raises, uncaught_not_caught in B as [N1 N2]. now destruct e.
Qed.

Lemma occurrences_from_spec v t i j :
  In j (occurrences_from v t i) <-> occurs_at v t (j - i).
Proof.
  revert i. induction t as [|c t IH]; intros i.
  - change (occurrences_from v "" i)
      with ((if String.prefix v "" then [i] else []) ++ [])%list.
    rewrite app_nil_r. split.
    + destruct (String.prefix v "") eqn:P; [|intros []].
      intros [<-|[]]. replace (i - i) with 0 by lia. now apply occurs_at_0.
    + intros (pre & post & E & L). destruct pre; [|discriminate].
      simpl in L. destruct v; [|discriminate]. simpl. left. lia.
  - change (occurrences_from v (String c t) i)
      with ((if String.prefix v (String c t) then [i] else [])
            ++ occurrences_from v t (i + 1))%list.
    rewrite in_app_iff, IH, occurs_at_cons.
    replace (j - (i + 1)) with (j - i - 1) by lia. split.
    + intros [Hin|Hocc].
      * destruct (String.prefix v (String c t)) eqn:P; [|destruct Hin].
        destruct Hin as [<-|[]]. left. split; [lia | reflexivity].
      * right. split; [|exact Hocc]. apply occurs_at_nonneg in Hocc. lia.
    + intros [[E P]|[_ Hocc]]; [|now right].
      left. rewrite P. left. lia.
Qed.

(** C1, checked on concrete strings: [v] occurs exactly once in [t], at [i]. *)
Lemma occurs_once_check v t i :
  occurrences_from v t 0 = [i] ->
  occurs_at v t i /\ forall j, occurs_at v t j -> j = i.
Proof.
  intros E. split.
  - replace i with (i - 0) by lia. apply occurrences_from_spec. rewrite E. now left.
  - intros j Hj. replace j with (j - 0) in Hj by lia.
    apply occurrences_from_spec in Hj. rewrite E in Hj. destruct Hj as [<-|[]]. reflexivity.
Qed.

(** ** The hosted-LLM parser *)

(** The loop body on an item with a string value, a string (or no) type and
    a [start] that compares with 0: a record with that [start], or nothing. *)
Lemma openai_body_str text d ty v ok ms :
  Py.dict_get d "type" (PStr "") = PStr ty ->
  Py.dict_get d "value" (PStr "") = PStr v ->
  Py.ge0 (Py.dict_get d "start" (PInt (Py.find text v))) = Return ok ->
  OpenAIGuard.loop_body text (PDict d) ms =
  if (negb (String.eqb v "") && ok)%bool then
    (Return tt,
     (ms ++ [{| pii_type := table_get OpenAIGuard.type_map (Py.lower ty) CUSTOM;
                value := PStr v;
                start := Py.dict_get d "start" (PInt (Py.find text v));
                end_ := Py.dict_get d "end"
                          (match Py.add_int (Py.dict_get d "start" (PInt (Py.find text v)))
                                            (Z.of_nat (String.length v)) with
                           | Return e => e
                           | Raise _ => PNone
                           end);
                confidence := 0.90%float |}])%list)
  else (Return tt, ms).
Proof.
  intros Hty Hv Hok. unfold OpenAIGuard.loop_body, bind, eval, ret, append. simpl.
  rewrite Hty, Hv. simpl. rewrite Hok.
  destruct ok.
  - destruct (Py.dict_get d "start" (PInt (Py.find text v))); try discriminate; simpl;
      now destruct (String.eqb v "").
  - simpl. rewrite andb_false_r. now destruct (String.eqb v "").
Qed.

(** The hosted-LLM parser on a payload that decodes to an object whose
    selected value is a list: the loop over the items decides the result. *)
Lemma openai_parse_list `{JSON} self text response raw content items :
  OpenAIGuard.first_content response = Return (PStr raw) ->
  decode raw = Return content ->
  OpenAIGuard.select_pii_list content = Return (PList items) ->
  OpenAIGuard._parse_response self text response =
  match for_each items (OpenAIGuard.loop_body text) [] with
  | (Return _, ms) =>
      Return {| matches := ms; raw_response := Some [("content", PStr raw)];
                model_used := Some (OpenAIGuard.model self) |}
  | (Raise e, _) => Raise e
  end.
Proof.
  intros Hr Hd Hs. unfold OpenAIGuard._parse_response, try_except_pass, bind, eval, ret.
  rewrite Hr. simpl. rewrite Hd. rewrite Hs. simpl.
  destruct (for_each items (OpenAIGuard.loop_body text) []) as [[[]|e] ms] eqn:E.
  - reflexivity.
  - apply for_each_raise in E as (x & ms1 & _ & B).
    apply openai_body_raises, uncaught_not_caught in B as [N1 N2]. now destruct e.
Qed.

(** ** Scenarios of the spec *)

Example find_first : Py.find "abcabc" "bc" = 1.
Proof. reflexivity. Qed.

Example find_missing : Py.find "abcabc" "bd" = -1.
Proof. reflexivity. Qed.

Example decode_items :
  json.decode_document
    (json.text "[{'type': 'name', 'value': 'a\tb', 'start': 1.5e0}, null, -12 ]")
  = Return (PList [PDict [("type", PStr "name");
                          ("value", PStr (String "a" (String (ascii_of_nat 9) "b")));
                        ("start", PFloat 1.5%float)];
                 PNone; PInt (-12)]).
Proof. vm_compute. reflexivity. Qed.

Example decode_fraction : json.decode_document "0.1" = Return (PFloat 0.1%float).
Proof. vm_compute. reflexivity. Qed.

Example decode_trailing_comma : json.decode_document "[1,]" = Raise JSONDecodeError.
Proof. reflexivity. Qed.

(** Two items without offsets: both are located in the text. *)
Example scenario_two_items :
  @LlamaGuard._parse_response json.decoder llama_guard3
    "Contact John Smith at john@example.com"
    (llama_response
       "[{'type':'name','value':'John Smith'}, {'type':'email','value':'john@example.com'}]")
  = Return {| matches :=
                [ {| pii_type := NAME; value := PStr "John Smith";
                     start := PInt 8; end_ := PInt 18; confidence := 0.85%float |};
                  {| pii_type := EMAIL; value := PStr "john@example.com";
                     start := PInt 22; end_ := PInt 38; confidence := 0.85%float |} ];
              raw_response :=
                Some (llama_response
                  "[{'type':'name','value':'John Smith'}, {'type':'email','value':'john@example.com'}]");
              model_used := Some "llama-guard3" |}.
Proof. vm_compute. reflexivity. Qed.

(** Content that is not JSON: zero matches, from either parser. *)
Example scenario_malformed_json :
  result_matches (@LlamaGuard._parse_response json.decoder llama_guard3 "Contact John Smith"
                    (llama_response "not valid json")) = Return []
  /\ result_matches (@OpenAIGuard._parse_response json.decoder gpt_4o_mini "Contact John Smith"
                       (openai_response "not valid json")) = Return [].
Proof. split; vm_compute; reflexivity. Qed.

Example scenario_registry :
  get_guard "regex" = Return NoGuard
  /\ get_guard "llama" = get_guard "llama-guard"
  /\ get_guard "Presidio" = Return (Construct PresidioGuard_class).
Proof. repeat split. Qed.

(** * The claims *)

(** C1.  Span resolution in the local-model parser, which receives only the
    value: when [V] occurs exactly once in [T], at index [i], an item with
    value [V] (and a string type, or none) gives the record with
    [start = i] and [end = i + len(V)].  The loop body appends exactly that
    record; a payload of that one item gives a result with that one record;
    and in any payload that holds the item, the record is among the matches
    whenever the parser returns. *)
Theorem C1_llama_span_resolution `{JSON} (self : LlamaGuard.instance)
    (T V ty : string) (i : Z) (d : dict) :
  occurs_at V T i ->
  (forall j, occurs_at V T j -> j = i) ->
  Py.lookup d "value" = Some (PStr V) ->
  Py.dict_get d "type" (PStr "") = PStr ty ->
  let m := {| pii_type := table_get LlamaGuard.type_map (Py.lower ty) CUSTOM;
              value := PStr V;
              start := PInt i;
              end_ := PInt (i + Z.of_nat (String.length V));
              confidence := 0.85%float |} in
  (forall ms, LlamaGuard.loop_body T (PDict d) ms = (Return tt, (ms ++ [m])%list))
  /\ (forall response content,
        Py.dict_get response "response" (PStr "[]") = PStr content ->
        decode content = Return (PList [PDict d]) ->
        LlamaGuard._parse_response self T response =
        Return {| matches := [m]; raw_response := Some response;
                  model_used := Some (LlamaGuard.model self) |})
  /\ (forall response content pre post r,
        Py.dict_get response "response" (PStr "[]") = PStr content ->
        decode content = Return (PList (pre ++ PDict d :: post)) ->
        LlamaGuard._parse_response self T response = Return r ->
        In m (matches r)).
Proof.
  intros Hocc Huniq Hv Hty m.
  assert (Hfind : Py.find T V = i).
  { apply find_lowest; [exact Hocc|]. intros j Hj. rewrite (Huniq j Hj). lia. }
  assert (Hbody : forall ms, LlamaGuard.loop_body T (PDict d) ms = (Return tt, (ms ++ [m])%list)).
  { intros ms. rewrite (llama_body_str T d ty V ms Hty (dict_get_lookup _ _ _ _ Hv)).
    rewrite Hfind. pose proof (occurs_at_nonneg _ _ _ Hocc) as Hi.
    destruct (Z.leb_spec 0 i); [reflexivity | lia]. }
  split; [exact Hbody|]. split.
  - intros response content Hc Hd.
    rewrite (llama_parse_list self T response content _ Hc Hd).
    simpl. unfold bind. rewrite Hbody. reflexivity.
  - intros response content pre post r Hc Hd.
    rewrite (llama_parse_list self T response content _ Hc Hd).
    destruct (for_each _ _ _) as [[[]|e] ms] eqn:E; [|discriminate].
    intros [= <-]. simpl.
    eapply for_each_emits; [exact Hbody | | exact E].
    intros y ms0. apply llama_body_extends.
Qed.

(** The end-to-end scenario of the spec, first item: "John Smith" occurs once
    in the text, at index 8, and the record spans 8 to 18. *)
Lemma C1_llama_span_resolution_witness :
  @LlamaGuard._parse_response json.decoder
    {| LlamaGuard.base_url := "http://localhost:11434"; LlamaGuard.model := "llama-guard3" |}
    "Contact John Smith at john@example.com"
    [("response", PStr (json.text "[{'type':'name','value':'John Smith'}]"))]
  = Return {| matches := [ {| pii_type := NAME; value := PStr "John Smith";
                              start := PInt 8; end_ := PInt 18;
                              confidence := 0.85%float |} ];
              raw_response :=
                Some [("response", PStr (json.text "[{'type':'name','value':'John Smith'}]"))];
              model_used := Some "llama-guard3" |}.
Proof.
  pose proof (occurs_once_check "John Smith" "Contact John Smith at john@example.com" 8
                eq_refl) as [Hocc Huniq].
  apply (proj1 (proj2 (@C1_llama_span_resolution json.decoder
            {| LlamaGuard.base_url := "http://localhost:11434";
               LlamaGuard.model := "llama-guard3" |}
            "Contact John Smith at john@example.com" "John Smith" "name" 8
            [("type", PStr "name"); ("value", PStr "John Smith")]
            Hocc Huniq eq_refl eq_refl))
           [("response", PStr (json.text "[{'type':'name','value':'John Smith'}]"))]
           (json.text "[{'type':'name','value':'John Smith'}]")).
  - reflexivity.
  - vm_compute. reflexivity.
Defined.

(** C2.  A value that is no literal substring of the text (so, not empty)
    gives no record and no error: the loop body of the local-model parser
    leaves [matches] as it is, and so does the one of the hosted-LLM parser
    when the item has no [start].  The loop runs as if the item were not in
    the list, and a payload of that one item gives zero matches. *)
Theorem C2_unlocated_value_dropped `{JSON} (T V ty : string) (d : dict) :
  ~ occurs_in V T ->
  Py.lookup d "value" = Some (PStr V) ->
  Py.dict_get d "type" (PStr "") = PStr ty ->
  ((forall ms, LlamaGuard.loop_body T (PDict d) ms = (Return tt, ms))
   /\ (forall pre post ms,
         for_each (pre ++ PDict d :: post)%list (LlamaGuard.loop_body T) ms
         = for_each (pre ++ post)%list (LlamaGuard.loop_body T) ms)
   /\ (forall self response content,
         Py.dict_get response "response" (PStr "[]") = PStr content ->
         decode content = Return (PList [PDict d]) ->
         LlamaGuard._parse_response self T response =
         Return {| matches := []; raw_response := Some response;
                   model_used := Some (LlamaGuard.model self) |}))
  /\ (Py.lookup d "start" = None ->
      (forall ms, OpenAIGuard.loop_body T (PDict d) ms = (Return tt, ms))
      /\ (forall pre post ms,
            for_each (pre ++ PDict d :: post)%list (OpenAIGuard.loop_body T) ms
            = for_each (pre ++ post)%list (OpenAIGuard.loop_body T) ms)
      /\ (forall self response raw content,
            OpenAIGuard.first_content response = Return (PStr raw) ->
            decode raw = Return content ->
            OpenAIGuard.select_pii_list content = Return (PList [PDict d]) ->
            OpenAIGuard._parse_response self T response =
            Return {| matches := []; raw_response := Some [("content", PStr raw)];
                      model_used := Some (OpenAIGuard.model self) |})).
Proof.
  intros Habs Hv Hty. apply find_absent in Habs.
  pose proof (dict_get_lookup _ _ (PStr "") _ Hv) as Hv'.
  assert (HL : forall ms, LlamaGuard.loop_body T (PDict d) ms = (Return tt, ms)).
  { intros ms. rewrite (llama_body_str T d ty V ms Hty Hv'), Habs. reflexivity. }
  split; [split; [exact HL | split]|].
  - intros pre post ms. now apply for_each_skip.
  - intros self response content Hc Hd.
    rewrite (llama_parse_list self T response content _ Hc Hd).
    simpl. unfold bind. rewrite HL. reflexivity.
  - intros Hs.
    assert (HO : forall ms, OpenAIGuard.loop_body T (PDict d) ms = (Return tt, ms)).
    { intros ms. rewrite (openai_body_str T d ty V false ms Hty Hv').
      - now rewrite andb_false_r.
      - rewrite (dict_get_missing _ _ _ Hs), Habs. reflexivity. }
    split; [exact HO | split].
    + intros pre post ms. now apply for_each_skip.
    + intros self response raw content Hr Hd Hsel.
      rewrite (openai_parse_list self T response raw content _ Hr Hd Hsel).
      simpl. unfold bind. rewrite HO. reflexivity.
Qed.

(** "Jane Doe" is not in the text: the local-model payload with that one
    item gives zero matches. *)
Lemma C2_unlocated_value_dropped_witness :
  @LlamaGuard._parse_response json.decoder
    {| LlamaGuard.base_url := "http://localhost:11434"; LlamaGuard.model := "llama-guard3" |}
    "Contact John Smith"
    [("response", PStr (json.text "[{'type':'name','value':'Jane Doe'}]"))]
  = Return {| matches := [];
              raw_response :=
                Some [("response", PStr (json.text "[{'type':'name','value':'Jane Doe'}]"))];
              model_used := Some "llama-guard3" |}.
Proof.
  assert (Habs : ~ occurs_in "Jane Doe" "Contact John Smith")
    by (apply find_absent; reflexivity).
  apply (proj2 (proj2 (proj1 (@C2_unlocated_value_dropped json.decoder
            "Contact John Smith" "Jane Doe" "name"
            [("type", PStr "name"); ("value", PStr "Jane Doe")]
            Habs eq_refl eq_refl)))
           {| LlamaGuard.base_url := "http://localhost:11434";
              LlamaGuard.model := "llama-guard3" |}
           [("response", PStr (json.text "[{'type':'name','value':'Jane Doe'}]"))]
           (json.text "[{'type':'name','value':'Jane Doe'}]")).
  - reflexivity.
  - vm_compute. reflexivity.
Defined.

(** ** Malformed payloads *)

(** Content that is not valid JSON: the local-model parser returns zero
    matches (the end-to-end scenario of the spec). *)
Lemma llama_invalid_json `{JSON} self text response content :
  Py.dict_get response "response" (PStr "[]") = PStr content ->
  decode content = Raise JSONDecodeError ->
  LlamaGuard._parse_response self text response =
  Return {| matches := []; raw_response := Some response;
            model_used := Some (LlamaGuard.model self) |}.
Proof.
  intros Hc Hd. unfold LlamaGuard._parse_response, try_except_pass, bind, eval, ret.
  rewrite Hc. simpl. rewrite Hd. reflexivity.
Qed.

(** Content that is not valid JSON: the hosted-LLM parser returns zero
    matches. *)
Lemma openai_invalid_json `{JSON} self text response raw :
  OpenAIGuard.first_content response = Return (PStr raw) ->
  decode raw = Raise JSONDecodeError ->
  OpenAIGuard._parse_response self text response =
  Return {| matches := []; raw_response := Some [("content", PStr raw)];
            model_used := Some (OpenAIGuard.model self) |}.
Proof.
  intros Hr Hd. unfold OpenAIGuard._parse_response, try_except_pass, bind, eval, ret.
  rewrite Hr. simpl. rewrite Hd. reflexivity.
Qed.

(** [json.loads] raises a [TypeError] on what is no string, and otherwise
    what the decoder raises. *)
Lemma loads_raises `{JSON} x e :
  json.loads x = Raise e ->
  e = TypeError \/ exists s, x = PStr s /\ decode s = Raise e.
Proof.
  unfold json.loads. destruct x; try (intros [= <-]; now left).
  intros D. right. now exists s.
Qed.

(** What escapes the local-model parser is never a [JSONDecodeError] or a
    [KeyError]: it is an [AttributeError], a [TypeError], or another
    exception that the decoder raised on the content. *)
Lemma llama_parse_escapes `{JSON} self text response e :
  LlamaGuard._parse_response self text response = Raise e ->
  (e <> JSONDecodeError /\ e <> KeyError)
  /\ (uncaught e
      \/ exists content,
           Py.dict_get response "response" (PStr "[]") = PStr content
           /\ decode content = Raise e).
Proof.
  unfold LlamaGuard._parse_response, try_except_pass, bind, eval, ret.
  assert (U : forall x, uncaught x ->
                (x <> JSONDecodeError /\ x <> KeyError)
                /\ (uncaught x
                    \/ exists content,
                         Py.dict_get response "response" (PStr "[]") = PStr content
                         /\ decode content = Raise x)).
  { intros x Hx. split; [now apply uncaught_not_caught | now left]. }
  destruct (json.loads _) as [v|e1] eqn:L.
  - destruct (Py.iter v) as [items|e2] eqn:I.
    + destruct (for_each items _ _) as [[[]|e3] ms] eqn:F; [discriminate|].
      apply for_each_raise in F as (x & ms1 & _ & B). apply llama_body_raises in B.
      destruct B as [-> | ->]; intros [= <-]; apply U; [now left | now right].
    + apply iter_raises in I.
      destruct I as [-> | ->]; intros [= <-]; apply U; [now left | now right].
  - apply loads_raises in L as [-> | (content & Hc & D)].
    + intros [= <-]. apply U. now right.
    + destruct e1; try discriminate; intros [= <-];
        (split; [split; discriminate | right; now exists content]).
Qed.

(** What escapes the hosted-LLM parser is never a [JSONDecodeError] or a
    [KeyError]: it is an [AttributeError], a [TypeError], the [IndexError]
    of a response without choices, or another exception that the decoder
    raised on the content. *)
Lemma openai_parse_escapes `{JSON} self text response e :
  OpenAIGuard._parse_response self text response = Raise e ->
  (e <> JSONDecodeError /\ e <> KeyError)
  /\ (uncaught e \/ e = IndexError
      \/ exists raw,
           OpenAIGuard.first_content response = Return (PStr raw)
           /\ decode raw = Raise e).
Proof.
  unfold OpenAIGuard._parse_response, try_except_pass, bind, eval, ret.
  destruct (OpenAIGuard.first_content response) as [raw|e0] eqn:Fc.
  2:{ unfold OpenAIGuard.first_content in Fc. destruct (OpenAIGuard.choices response);
        [|discriminate]. injection Fc as <-. intros [= <-].
      split; [split; discriminate | right; now left]. }
  assert (U : forall x, uncaught x ->
                (x <> JSONDecodeError /\ x <> KeyError)
                /\ (uncaught x \/ x = IndexError
                    \/ exists raw0, Return raw = Return (PStr raw0) /\ decode raw0 = Raise x)).
  { intros x Hx. split; [now apply uncaught_not_caught | now left]. }
  destruct (json.loads raw) as [content|e1] eqn:L.
  2:{ apply loads_raises in L as [-> | (s & -> & D)].
      - intros [= <-]. apply U. now right.
      - destruct e1; try discriminate; intros [= <-];
          (split; [split; discriminate | right; right; now exists s]). }
  destruct (OpenAIGuard.select_pii_list content) as [selected|e2] eqn:S.
  2:{ unfold OpenAIGuard.select_pii_list in S.
      destruct content; try discriminate; injection S as <-; intros [= <-]; apply U;
        now left. }
  destruct (Py.is_list selected); [|discriminate].
  destruct (Py.iter selected) as [items|e3] eqn:I.
  2:{ apply iter_raises in I. destruct I as [-> | ->]; intros [= <-]; apply U;
        [now left | now right]. }
  destruct (for_each items _ _) as [[[]|e4] ms] eqn:F; [discriminate|].
  apply for_each_raise in F as (x & ms1 & _ & B). apply openai_body_raises in B.
  destruct B as [-> | ->]; intros [= <-]; apply U; [now left | now right].
Qed.

(** C3.  The parsers are not total on malformed payloads.  Invalid JSON does
    degrade to zero matches, but a list item that is not an object, a top
    level of the wrong shape, a field of an unexpected type and a content
    that is no string each raise an [AttributeError] or a [TypeError], which
    [except (json.JSONDecodeError, KeyError)] lets through. *)
Theorem C3_malformed_payload_raises :
  @LlamaGuard._parse_response json.decoder llama_guard3 "Contact John Smith"
    (llama_response "not valid json")
  = Return {| matches := []; raw_response := Some (llama_response "not valid json");
              model_used := Some "llama-guard3" |}
  /\ @LlamaGuard._parse_response json.decoder llama_guard3 "Contact John Smith"
       (llama_response "[1]") = Raise AttributeError
  /\ @LlamaGuard._parse_response json.decoder llama_guard3 "Contact John Smith"
       (llama_response "{'pii': []}") = Raise AttributeError
  /\ @LlamaGuard._parse_response json.decoder llama_guard3 "Contact John Smith"
       (llama_response "7") = Raise TypeError
  /\ @LlamaGuard._parse_response json.decoder llama_guard3 "Contact John Smith"
       (llama_response "[{'type': null, 'value': 'John'}]") = Raise AttributeError
  /\ @LlamaGuard._parse_response json.decoder llama_guard3 "Contact John Smith"
       (llama_response "[{'type': 'name', 'value': 7}]") = Raise TypeError
  /\ @LlamaGuard._parse_response json.decoder llama_guard3 "Contact John Smith"
       [("response", PNone)] = Raise TypeError
  /\ @OpenAIGuard._parse_response json.decoder gpt_4o_mini "Contact John Smith"
       (openai_response "{'pii': [1]}") = Raise AttributeError
  /\ @OpenAIGuard._parse_response json.decoder gpt_4o_mini "Contact John Smith"
       (openai_response "[]") = Raise AttributeError
  /\ @OpenAIGuard._parse_response json.decoder gpt_4o_mini "Contact John Smith"
       (openai_response "{'pii': [{'type': 'name', 'value': 'John', 'start': '8'}]}")
     = Raise TypeError.
Proof. repeat split; vm_compute; reflexivity. Qed.

Lemma find_empty text : Py.find text "" = 0.
Proof. unfold Py.find. rewrite find_from_eq. now destruct text. Qed.

(** An item without [value] in the local-model parser: a record with the
    empty value at (0, 0). *)
Lemma llama_missing_value_kept text d ty ms :
  Py.lookup d "value" = None ->
  Py.dict_get d "type" (PStr "") = PStr ty ->
  LlamaGuard.loop_body text (PDict d) ms =
  (Return tt,
   (ms ++ [ {| pii_type := table_get LlamaGuard.type_map (Py.lower ty) CUSTOM;
               value := PStr ""; start := PInt 0; end_ := PInt 0;
               confidence := 0.85%float |} ])%list).
Proof.
  intros Hv Hty.
  rewrite (llama_body_str text d ty "" ms Hty (dict_get_missing _ _ _ Hv)).
  rewrite find_empty. reflexivity.
Qed.

(** An item without [value] and without [start] in the hosted-LLM parser:
    nothing. *)
Lemma openai_missing_value_dropped text d ty ms :
  Py.lookup d "value" = None ->
  Py.lookup d "start" = None ->
  Py.dict_get d "type" (PStr "") = PStr ty ->
  OpenAIGuard.loop_body text (PDict d) ms = (Return tt, ms).
Proof.
  intros Hv Hs Hty.
  rewrite (openai_body_str text d ty "" true ms Hty (dict_get_missing _ _ _ Hv)).
  - reflexivity.
  - rewrite (dict_get_missing _ _ _ Hs), find_empty. reflexivity.
Qed.

(** C4.  One well-formed item and one item without [value]: the local-model
    parser returns two records, the second with the empty value and the span
    (0, 0), because [text.find] of the empty string is 0; the hosted-LLM
    parser, which tests
    [value] before it appends, returns the one record. *)
Theorem C4_missing_value_item :
  @LlamaGuard._parse_response json.decoder llama_guard3 "Contact John Smith"
    (llama_response "[{'type':'name','value':'John Smith'}, {'type':'email'}]")
  = Return {| matches :=
                [ {| pii_type := NAME; value := PStr "John Smith";
                     start := PInt 8; end_ := PInt 18; confidence := 0.85%float |};
                  {| pii_type := EMAIL; value := PStr "";
                     start := PInt 0; end_ := PInt 0; confidence := 0.85%float |} ];
              raw_response :=
                Some (llama_response "[{'type':'name','value':'John Smith'}, {'type':'email'}]");
              model_used := Some "llama-guard3" |}
  /\ @OpenAIGuard._parse_response json.decoder gpt_4o_mini "Contact John Smith"
       (openai_response "{'pii': [{'type':'name','value':'John Smith'}, {'type':'email'}]}")
     = Return {| matches :=
                   [ {| pii_type := NAME; value := PStr "John Smith";
                        start := PInt 8; end_ := PInt 18; confidence := 0.90%float |} ];
                 raw_response :=
                   Some [("content",
                          PStr (json.text
                            "{'pii': [{'type':'name','value':'John Smith'}, {'type':'email'}]}"))];
                 model_used := Some "gpt-4o-mini" |}.
Proof. split; vm_compute; reflexivity. Qed.

(** ** Type mapping *)

Lemma table_get_notin {A : Type} (table : list (string * A)) key default :
  ~ In key (keys table) -> table_get table key default = default.
Proof.
  induction table as [|[k v] table IH]; simpl; intros N; [reflexivity|].
  destruct (String.eqb_spec k key) as [->|_]; [elim N; now left|].
  apply IH. intros Hin. apply N. now right.
Qed.




(** ** The backend selector *)

Lemma str_in_In x xs : Py.str_in x xs = true <-> In x xs.
Proof.
  unfold Py.str_in. rewrite existsb_exists. split.
  - intros (y & Hy & E). apply String.eqb_eq in E. now subst.
  - intros Hx. exists x. split; [exact Hx | apply String.eqb_refl].
Qed.

Lemma providers_lookup_none table key :
  providers_lookup table key = None <-> ~ In key (keys table).
Proof.
  induction table as [|[k c] table IH]; simpl.
  - tauto.
  - destruct (String.eqb_spec k key) as [->|N].
    + split; [discriminate | intros H; elim H; now left].
    + rewrite IH. tauto.
Qed.

Lemma append_assoc (a b c : string) : (a ++ b) ++ c = a ++ b ++ c.
Proof. induction a as [|x a IH]; simpl; [reflexivity | now rewrite IH]. Qed.

Lemma occurs_in_append v u t : occurs_in v t -> occurs_in v (u ++ t).
Proof.
  intros (pre & post & ->). exists (u ++ pre), post. now rewrite append_assoc.
Qed.

(** C6.  The selector lower-cases the identifier and then: returns [None]
    exactly when it is "regex", "none" or empty; constructs the class the
    registry gives, the same for "llama" and "llama-guard", for "bedrock" and
    "aws", and for "openai" and "gpt"; and for every other identifier raises
    a [ValueError], constructing nothing, whose message holds the
    (lower-cased) identifier and every key of the registry. *)
Theorem C6_get_guard (provider : string) :
  (get_guard provider = Return NoGuard
   <-> Py.lower provider = "regex" \/ Py.lower provider = "none" \/ Py.lower provider = "")
  /\ (get_guard "llama" = Return (Construct LlamaGuard_class)
      /\ get_guard "llama-guard" = Return (Construct LlamaGuard_class))
  /\ (get_guard "bedrock" = Return (Construct BedrockGuard_class)
      /\ get_guard "aws" = Return (Construct BedrockGuard_class))
  /\ (get_guard "openai" = Return (Construct OpenAIGuard_class)
      /\ get_guard "gpt" = Return (Construct OpenAIGuard_class))
  /\ (forall c, providers_lookup providers (Py.lower provider) = Some c ->
        get_guard provider = Return (Construct c))
  /\ (~ In (Py.lower provider) ["regex"; "none"; ""] ->
      ~ In (Py.lower provider) (keys providers) ->
      let msg := "Unknown guard provider: " ++ Py.lower provider
                 ++ ". Supported: ['llama', 'llama-guard', 'bedrock', 'aws', 'presidio', 'openai', 'gpt']" in
      get_guard provider = Raise (ValueError msg)
      /\ occurs_in (Py.lower provider) msg
      /\ forall k, In k (keys providers) -> occurs_in k msg).
Proof.
  assert (Hdisj : forall p c, providers_lookup providers p = Some c ->
                              Py.str_in p ["regex"; "none"; ""] = false).
  { intros p c Hc. destruct (Py.str_in p ["regex"; "none"; ""]) eqn:S; [|reflexivity].
    apply str_in_In in S. simpl in S. destruct S as [<-|[<-|[<-|[]]]]; discriminate Hc. }
  split; [|split; [|split; [|split; [|split]]]]; try (split; reflexivity).
  - unfold get_guard. destruct (Py.str_in _ _) eqn:S.
    + apply str_in_In in S. simpl in S. split; [intros _ | reflexivity].
      destruct S as [<-|[<-|[<-|[]]]]; auto.
    + split.
      * destruct (providers_lookup _ _); discriminate.
      * intros Hl. assert (S' : Py.str_in (Py.lower provider) ["regex"; "none"; ""] = true).
        { apply str_in_In. simpl. destruct Hl as [->|[->| ->]]; auto. }
        congruence.
  - intros c Hc. unfold get_guard. rewrite (Hdisj _ _ Hc), Hc. reflexivity.
  - intros Hn Hk msg. split; [|split].
    + unfold get_guard.
      destruct (Py.str_in _ _) eqn:S; [apply str_in_In in S; contradiction|].
      apply providers_lookup_none in Hk. rewrite Hk. reflexivity.
    + exists "Unknown guard provider: ",
        ". Supported: ['llama', 'llama-guard', 'bedrock', 'aws', 'presidio', 'openai', 'gpt']".
      reflexivity.
    + intros k Hin. unfold msg. do 2 apply occurs_in_append. simpl in Hin.
      destruct Hin as [<-|[<-|[<-|[<-|[<-|[<-|[<-|[]]]]]]]].
      * now exists ". Supported: ['", "', 'llama-guard', 'bedrock', 'aws', 'presidio', 'openai', 'gpt']".
      * now exists ". Supported: ['llama', '", "', 'bedrock', 'aws', 'presidio', 'openai', 'gpt']".
      * now exists ". Supported: ['llama', 'llama-guard', '", "', 'aws', 'presidio', 'openai', 'gpt']".
      * now exists ". Supported: ['llama', 'llama-guard', 'bedrock', '", "', 'presidio', 'openai', 'gpt']".
      * now exists ". Supported: ['llama', 'llama-guard', 'bedrock', 'aws', '", "', 'openai', 'gpt']".
      * now exists ". Supported: ['llama', 'llama-guard', 'bedrock', 'aws', 'presidio', '", "', 'gpt']".
      * now exists ". Supported: ['llama', 'llama-guard', 'bedrock', 'aws', 'presidio', 'openai', '", "']".
Qed.

(** The registry scenario of the spec: "nonexistent-provider" is refused with
    the message that names it and lists the registry. *)
Lemma C6_get_guard_witness :
  get_guard "nonexistent-provider"
  = Raise (ValueError
      "Unknown guard provider: nonexistent-provider. Supported: ['llama', 'llama-guard', 'bedrock', 'aws', 'presidio', 'openai', 'gpt']").
Proof.
  apply (proj2 (proj2 (proj2 (proj2 (proj2 (C6_get_guard "nonexistent-provider")))))).
  - simpl. intros H. repeat (destruct H as [H|H]; [discriminate H|]). exact H.
  - simpl. intros H. repeat (destruct H as [H|H]; [discriminate H|]). exact H.
Defined.

(** ** Case of type strings *)

Lemma case_distinct_spec ks :
  case_distinct ks = true ->
  forall k k', In k ks -> In k' ks -> Py.lower k' = Py.lower k -> k' = k.
Proof.
  unfold case_distinct. rewrite forallb_forall. intros H k k' Hk Hk' E.
  specialize (H k Hk). rewrite forallb_forall in H. specialize (H k' Hk').
  rewrite E, String.eqb_refl in H. simpl in H. now apply String.eqb_eq.
Qed.

(** A string that differs from a key only in case is no key of a table whose
    keys are distinct up to case. *)
Lemma case_variant_notin {A : Type} (table : list (string * A)) s k :
  case_distinct (keys table) = true ->
  In k (keys table) -> s <> k -> Py.lower s = Py.lower k -> ~ In s (keys table).
Proof.
  intros Hd Hk Hne E Hs. apply Hne. exact (case_distinct_spec _ Hd k s Hk Hs E).
Qed.

(** C7.  The local-model and hosted-LLM mappings send two strings with the
    same lower-cased form, that is, two case variants, to the same category.
    The managed-cloud mapping (and the analyzer-library one) matches exactly:
    a string that differs from a key of its table only in case maps to
    [CUSTOM]. *)
Theorem C7_type_lookup_case :
  (forall s s', Py.lower s = Py.lower s' ->
     LlamaGuard._map_type (PStr s) = LlamaGuard._map_type (PStr s')
     /\ OpenAIGuard._map_type (PStr s) = OpenAIGuard._map_type (PStr s'))
  /\ (forall s k, In k (keys BedrockGuard.type_map) ->
        s <> k -> Py.lower s = Py.lower k ->
        BedrockGuard._map_bedrock_type (PStr s) = Return CUSTOM)
  /\ (forall s k, In k (keys PresidioGuard.type_map) ->
        s <> k -> Py.lower s = Py.lower k ->
        PresidioGuard._map_presidio_type (PStr s) = Return CUSTOM).
Proof.
  split; [|split].
  - intros s s' E. unfold LlamaGuard._map_type, OpenAIGuard._map_type. now rewrite E.
  - intros s k Hk Hne E. unfold BedrockGuard._map_bedrock_type.
    rewrite table_get_notin; [reflexivity|].
    now apply (case_variant_notin BedrockGuard.type_map s k eq_refl).
  - intros s k Hk Hne E. unfold PresidioGuard._map_presidio_type.
    rewrite table_get_notin; [reflexivity|].
    now apply (case_variant_notin PresidioGuard.type_map s k eq_refl).
Qed.

(** "Email" and "EMAIL" are case variants of the key "email"; "email" differs
    from the managed-cloud key "EMAIL" only in case. *)
Lemma C7_type_lookup_case_witness :
  (LlamaGuard._map_type (PStr "Email") = LlamaGuard._map_type (PStr "EMAIL")
   /\ OpenAIGuard._map_type (PStr "Email") = OpenAIGuard._map_type (PStr "EMAIL"))
  /\ BedrockGuard._map_bedrock_type (PStr "email") = Return CUSTOM.
Proof.
  split.
  - apply (proj1 C7_type_lookup_case "Email" "EMAIL"). reflexivity.
  - apply (proj1 (proj2 C7_type_lookup_case) "email" "EMAIL").
    + simpl. auto.
    + discriminate.
    + reflexivity.
Defined.

Example llama_email_upper : LlamaGuard._map_type (PStr "EMAIL") = Return EMAIL.
Proof. reflexivity. Qed.

Example bedrock_email_upper : BedrockGuard._map_bedrock_type (PStr "EMAIL") = Return EMAIL.
Proof. reflexivity. Qed.

(** ** The managed-cloud parser *)

Lemma bedrock_entity_body response entity ms :
  (forall e, entity = PDict e -> entity_in response e) ->
  Forall (bedrock_record response) ms ->
  Forall (bedrock_record response) (snd (BedrockGuard.entity_body entity ms)).
Proof.
  intros Hin Hms. unfold BedrockGuard.entity_body, bind, eval, ret, append.
  destruct entity; simpl; try exact Hms.
  destruct (BedrockGuard._map_bedrock_type _) as [c|x] eqn:Mt; simpl; [|exact Hms].
  apply Forall_app. split; [exact Hms|]. constructor; [|constructor].
  repeat split. exists d. split; [now apply Hin | split; [reflexivity | exact Mt]].
Qed.

Lemma bedrock_assessment_body response assessment ms :
  (forall a, assessment = PDict a -> assessment_in response a) ->
  Forall (bedrock_record response) ms ->
  Forall (bedrock_record response) (snd (BedrockGuard.assessment_body assessment ms)).
Proof.
  intros Hin Hms. unfold BedrockGuard.assessment_body, bind, eval, ret.
  destruct assessment as [| | | | | |a]; simpl; try exact Hms.
  destruct (Py.as_dict _) as [s|x] eqn:S; simpl; [|exact Hms].
  destruct (Py.iter _) as [entities|x] eqn:I; simpl; [|exact Hms].
  apply for_each_invariant; [|exact Hms].
  intros entity He ms0 Hms0. apply bedrock_entity_body; [|exact Hms0].
  intros e ->. exists a, s, entities. repeat split; auto.
  destruct (Py.dict_get a "sensitiveInformationPolicy" (PDict [])); try discriminate S.
  now injection S as ->.
Qed.

Lemma bedrock_output_body response output ms :
  (forall o, output = PDict o -> output_in response o) ->
  Forall (bedrock_record response) ms ->
  Forall (bedrock_record response) (snd (BedrockGuard.output_body output ms)).
Proof.
  intros Hin Hms. unfold BedrockGuard.output_body, bind, eval, ret.
  destruct output as [| | | | | |o]; simpl; try exact Hms.
  destruct (Py.iter _) as [assessments|x] eqn:I; simpl; [|exact Hms].
  apply for_each_invariant; [|exact Hms].
  intros assessment Ha ms0 Hms0. apply bedrock_assessment_body; [|exact Hms0].
  intros a ->. exists o, assessments. repeat split; auto.
Qed.

(** C8.  The managed-cloud parser walks outputs, assessments, policy and
    entities with a default at every level: a response without [outputs]
    gives zero matches, and an output without [assessments], an assessment
    without [sensitiveInformationPolicy] and a policy without [piiEntities]
    add nothing and raise nothing.  Every record of a result has start 0 and
    end 0, and its value is the [match] field of an entity of the response
    (the empty string when the entity has none). *)
Theorem C8_bedrock_walk (text : string) (response : dict) :
  (Py.lookup response "outputs" = None ->
   BedrockGuard._parse_response text response =
   Return {| matches := []; raw_response := Some response;
             model_used := Some "bedrock-guardrails" |})
  /\ (forall o ms, Py.lookup o "assessments" = None ->
        BedrockGuard.output_body (PDict o) ms = (Return tt, ms))
  /\ (forall a ms, Py.lookup a "sensitiveInformationPolicy" = None ->
        BedrockGuard.assessment_body (PDict a) ms = (Return tt, ms))
  /\ (forall a s ms, Py.lookup a "sensitiveInformationPolicy" = Some (PDict s) ->
        Py.lookup s "piiEntities" = None ->
        BedrockGuard.assessment_body (PDict a) ms = (Return tt, ms))
  /\ (forall e c ms,
        BedrockGuard._map_bedrock_type (Py.dict_get e "type" (PStr "UNKNOWN")) = Return c ->
        BedrockGuard.entity_body (PDict e) ms =
        (Return tt, (ms ++ [ {| pii_type := c;
                                value := Py.dict_get e "match" (PStr "");
                                start := PInt 0; end_ := PInt 0;
                                confidence := 0.95%float |} ])%list))
  /\ (forall r, BedrockGuard._parse_response text response = Return r ->
        Forall (fun m => start m = PInt 0 /\ end_ m = PInt 0
                         /\ exists e, entity_in response e
                                      /\ value m = Py.dict_get e "match" (PStr ""))
               (matches r)).
Proof.
  split; [|split; [|split; [|split; [|split]]]].
  - intros Ho. unfold BedrockGuard._parse_response, bind, eval.
    rewrite (dict_get_missing _ _ _ Ho). reflexivity.
  - intros o ms Ho. unfold BedrockGuard.output_body, bind, eval. simpl.
    rewrite (dict_get_missing _ _ _ Ho). reflexivity.
  - intros a ms Ha. unfold BedrockGuard.assessment_body, bind, eval. simpl.
    rewrite (dict_get_missing _ _ _ Ha). reflexivity.
  - intros a s ms Ha Hs. unfold BedrockGuard.assessment_body, bind, eval. simpl.
    rewrite (dict_get_lookup _ _ _ _ Ha). simpl.
    rewrite (dict_get_missing _ _ _ Hs). reflexivity.
  - intros e c ms Hc. unfold BedrockGuard.entity_body, bind, eval, append. simpl.
    rewrite Hc. reflexivity.
  - intros r. unfold BedrockGuard._parse_response, bind, eval.
    destruct (Py.iter _) as [outputs|x] eqn:I; [|discriminate].
    pose proof (for_each_invariant (bedrock_record response) BedrockGuard.output_body outputs)
      as Inv.
    destruct (for_each outputs BedrockGuard.output_body []) as [[[]|x] ms] eqn:F;
      [|discriminate].
    intros [= <-]. simpl.
    assert (G : Forall (bedrock_record response) ms).
    { specialize (Inv (fun output Ho ms0 Hms0 =>
        bedrock_output_body response output ms0
          (fun o E => ex_intro _ outputs (conj I (eq_ind _ (fun x => In x outputs) Ho _ E)))
          Hms0) [] (Forall_nil _)).
      now rewrite F in Inv. }
    eapply Forall_impl; [|exact G].
    intros m (S & E & _ & e & He & Hv & _). eauto.
Qed.

Lemma C8_bedrock_walk_witness :
  BedrockGuard.assessment_body (PDict []) [] = (Return tt, [])
  /\ Forall (fun m => start m = PInt 0 /\ end_ m = PInt 0
                      /\ exists e, entity_in bedrock_sample e
                                   /\ value m = Py.dict_get e "match" (PStr ""))
       [ {| pii_type := NAME; value := PStr "John Smith"; start := PInt 0; end_ := PInt 0;
            confidence := 0.95%float |} ].
Proof.
  split.
  - apply (proj1 (proj2 (proj2 (C8_bedrock_walk "Contact John Smith" bedrock_sample)))).
    reflexivity.
  - apply (proj2 (proj2 (proj2 (proj2 (proj2
             (C8_bedrock_walk "Contact John Smith" bedrock_sample)))))
             {| matches := [ {| pii_type := NAME; value := PStr "John Smith";
                                start := PInt 0; end_ := PInt 0;
                                confidence := 0.95%float |} ];
                raw_response := Some bedrock_sample;
                model_used := Some "bedrock-guardrails" |}).
    vm_compute. reflexivity.
Defined.

(** ** Items of the hosted-LLM payload *)

(** The selected value is not a list: the hosted-LLM parser returns zero
    matches. *)
Lemma openai_parse_not_list `{JSON} self text response raw content selected :
  OpenAIGuard.first_content response = Return (PStr raw) ->
  decode raw = Return content ->
  OpenAIGuard.select_pii_list content = Return selected ->
  Py.is_list selected = false ->
  OpenAIGuard._parse_response self text response =
  Return {| matches := []; raw_response := Some [("content", PStr raw)];
            model_used := Some (OpenAIGuard.model self) |}.
Proof.
  intros Hr Hd Hs Hl. unfold OpenAIGuard._parse_response, try_except_pass, bind, eval, ret.
  rewrite Hr. simpl. rewrite Hd, Hs, Hl. reflexivity.
Qed.

(** On a payload that decodes to an object, the hosted-LLM parser takes the
    list of items from the [pii] key of the object, else from its [results]
    key, else takes the object itself; it loops over what it took when that
    is a list and returns zero matches when it is not (as for the object
    itself).  For an item with a string value: when [start]
    and [end] are both present, a record the item gives carries exactly the
    supplied [start] and [end], and it gives one when the value is not empty
    and the supplied [start] is at least 0; when both are absent, the item
    gives a record exactly when the value is not empty and occurs in the
    text, with [start] the index of the first occurrence and
    [end = start + len(value)]. *)
Theorem openai_items_of_object `{JSON} (T : string) (d : dict) :
  OpenAIGuard.select_pii_list (PDict d)
  = Return (match Py.lookup d "pii" with
            | Some v => v
            | None => match Py.lookup d "results" with
                      | Some v => v
                      | None => PDict d
                      end
            end)
  /\ (forall self response raw selected,
        OpenAIGuard.first_content response = Return (PStr raw) ->
        decode raw = Return (PDict d) ->
        OpenAIGuard.select_pii_list (PDict d) = Return selected ->
        OpenAIGuard._parse_response self T response =
        match selected with
        | PList items =>
            match for_each items (OpenAIGuard.loop_body T) [] with
            | (Return _, ms) =>
                Return {| matches := ms; raw_response := Some [("content", PStr raw)];
                          model_used := Some (OpenAIGuard.model self) |}
            | (Raise e, _) => Raise e
            end
        | _ => Return {| matches := []; raw_response := Some [("content", PStr raw)];
                         model_used := Some (OpenAIGuard.model self) |}
        end)
  /\ (forall item ty v s e ms,
        Py.dict_get item "type" (PStr "") = PStr ty ->
        Py.lookup item "value" = Some (PStr v) ->
        Py.lookup item "start" = Some s ->
        Py.lookup item "end" = Some e ->
        let m := {| pii_type := table_get OpenAIGuard.type_map (Py.lower ty) CUSTOM;
                    value := PStr v; start := s; end_ := e;
                    confidence := 0.90%float |} in
        (v <> "" -> Py.ge0 s = Return true ->
         OpenAIGuard.loop_body T (PDict item) ms = (Return tt, (ms ++ [m])%list))
        /\ (snd (OpenAIGuard.loop_body T (PDict item) ms) = ms
            \/ snd (OpenAIGuard.loop_body T (PDict item) ms) = (ms ++ [m])%list))
  /\ (forall item ty v ms,
        Py.dict_get item "type" (PStr "") = PStr ty ->
        Py.lookup item "value" = Some (PStr v) ->
        Py.lookup item "start" = None ->
        Py.lookup item "end" = None ->
        OpenAIGuard.loop_body T (PDict item) ms =
        if (negb (String.eqb v "") && Z.leb 0 (Py.find T v))%bool then
          (Return tt,
           (ms ++ [ {| pii_type := table_get OpenAIGuard.type_map (Py.lower ty) CUSTOM;
                       value := PStr v;
                       start := PInt (Py.find T v);
                       end_ := PInt (Py.find T v + Z.of_nat (String.length v));
                       confidence := 0.90%float |} ])%list)
        else (Return tt, ms)).
Proof.
  split; [|split; [|split]].
  - unfold OpenAIGuard.select_pii_list, Py.dict_get.
    destruct (Py.lookup d "pii"); [reflexivity|]. now destruct (Py.lookup d "results").
  - intros self response raw selected Hr Hd Hs.
    destruct selected;
      try (apply (openai_parse_not_list self T response raw (PDict d) _ Hr Hd Hs); reflexivity).
    apply (openai_parse_list self T response raw (PDict d) _ Hr Hd Hs).
  - intros item ty v s e ms Hty Hv Hs He m.
    pose proof (dict_get_lookup _ _ (PStr "") _ Hv) as Hv'.
    pose proof (dict_get_lookup _ _ (PInt (Py.find T v)) _ Hs) as Hs'.
    split.
    + intros Hne Hok.
      rewrite (openai_body_str T item ty v true ms Hty Hv') by now rewrite Hs'.
      destruct (String.eqb_spec v "") as [->|_]; [now elim Hne|]. simpl.
      rewrite Hs'. unfold Py.dict_get at 1. rewrite He. reflexivity.
    + destruct (Py.ge0 s) as [ok|x] eqn:Hok.
      * rewrite (openai_body_str T item ty v ok ms Hty Hv') by now rewrite Hs'.
        destruct (negb (String.eqb v "") && ok)%bool; [right | now left].
        simpl. rewrite Hs'. unfold Py.dict_get at 1. rewrite He. reflexivity.
      * left. unfold OpenAIGuard.loop_body, bind, eval, ret. simpl.
        rewrite Hty, Hv'. simpl. rewrite Hs', Hok. reflexivity.
  - intros item ty v ms Hty Hv Hs He.
    pose proof (dict_get_lookup _ _ (PStr "") _ Hv) as Hv'.
    rewrite (openai_body_str T item ty v (Z.leb 0 (Py.find T v)) ms Hty Hv')
      by now rewrite (dict_get_missing _ _ _ Hs).
    destruct (negb (String.eqb v "") && Z.leb 0 (Py.find T v))%bool; [|reflexivity].
    rewrite (dict_get_missing _ _ _ Hs), (dict_get_missing _ _ _ He). reflexivity.
Qed.

(** An item that supplies both offsets keeps them, though "Smith" starts at
    13 in the text; the same item without offsets is resolved by search. *)
Lemma openai_items_of_object_witness :
  OpenAIGuard.loop_body "Contact John Smith"
    (PDict [("type", PStr "name"); ("value", PStr "Smith"); ("start", PInt 2); ("end", PInt 5)])
    []
  = (Return tt, [ {| pii_type := NAME; value := PStr "Smith"; start := PInt 2;
                     end_ := PInt 5; confidence := 0.90%float |} ])
  /\ OpenAIGuard.loop_body "Contact John Smith"
       (PDict [("type", PStr "name"); ("value", PStr "Smith")]) []
     = (Return tt, [ {| pii_type := NAME; value := PStr "Smith"; start := PInt 13;
                        end_ := PInt 18; confidence := 0.90%float |} ]).
Proof.
  split.
  - apply (proj1 (proj1 (proj2 (proj2 (@openai_items_of_object json.decoder "Contact John Smith" [])))
             [("type", PStr "name"); ("value", PStr "Smith"); ("start", PInt 2); ("end", PInt 5)]
             "name" "Smith" (PInt 2) (PInt 5) [] eq_refl eq_refl eq_refl eq_refl)).
    + discriminate.
    + reflexivity.
  - apply (proj2 (proj2 (proj2 (@openai_items_of_object json.decoder "Contact John Smith" [])))
             [("type", PStr "name"); ("value", PStr "Smith")]
             "name" "Smith" [] eq_refl eq_refl eq_refl eq_refl).
Defined.

(** C9.  The payload itself is no source of items.  For the text
    "Contact John Smith" and the item with type "name" and value
    "John Smith": held under [pii] or under [results], the item gives its
    record, found at 8..18; as a payload that is itself the array of items,
    [content.get] raises an [AttributeError], which
    [except (json.JSONDecodeError, KeyError)] lets out of the parser; and an
    object payload with neither key is taken itself, is no list, and gives
    zero matches. *)
Theorem C9_array_payload_raises :
  @OpenAIGuard._parse_response json.decoder gpt_4o_mini "Contact John Smith"
    (openai_response "[{'type':'name','value':'John Smith'}]")
  = Raise AttributeError
  /\ result_matches
       (@OpenAIGuard._parse_response json.decoder gpt_4o_mini "Contact John Smith"
          (openai_response "{'pii': [{'type':'name','value':'John Smith'}]}"))
     = Return [ {| pii_type := NAME; value := PStr "John Smith"; start := PInt 8;
                   end_ := PInt 18; confidence := 0.90%float |} ]
  /\ result_matches
       (@OpenAIGuard._parse_response json.decoder gpt_4o_mini "Contact John Smith"
          (openai_response "{'results': [{'type':'name','value':'John Smith'}]}"))
     = Return [ {| pii_type := NAME; value := PStr "John Smith"; start := PInt 8;
                   end_ := PInt 18; confidence := 0.90%float |} ]
  /\ result_matches
       (@OpenAIGuard._parse_response json.decoder gpt_4o_mini "Contact John Smith"
          (openai_response "{'type':'name','value':'John Smith'}"))
     = Return [].
Proof. repeat split; vm_compute; reflexivity. Qed.

(** A payload that is itself an array, for every decoder and whatever the
    items are: [content] is a list, [content.get] raises an
    [AttributeError], and no result is returned. *)
Theorem openai_array_payload_raises `{JSON} (self : OpenAIGuard.instance) (T : string)
    (response : OpenAIGuard.ChatCompletion) (raw : string) (items : list pyval) :
  OpenAIGuard.first_content response = Return (PStr raw) ->
  decode raw = Return (PList items) ->
  OpenAIGuard._parse_response self T response = Raise AttributeError.
Proof.
  intros Hr Hd. unfold OpenAIGuard._parse_response, try_except_pass, bind, eval, ret.
  rewrite Hr. simpl. rewrite Hd. reflexivity.
Qed.

(** The array of items that the local-model prompt asks for, as the answer
    of the hosted model: offsets and all, it gives no record. *)
Lemma openai_array_payload_raises_witness :
  @OpenAIGuard._parse_response json.decoder gpt_4o_mini "Contact John Smith"
    (openai_response "[{'type':'name','value':'John Smith','start':8,'end':18}]")
  = Raise AttributeError.
Proof.
  apply (@openai_array_payload_raises json.decoder gpt_4o_mini "Contact John Smith"
           (openai_response "[{'type':'name','value':'John Smith','start':8,'end':18}]")
           (json.text "[{'type':'name','value':'John Smith','start':8,'end':18}]")
           [PDict [("type", PStr "name"); ("value", PStr "John Smith");
                   ("start", PInt 8); ("end", PInt 18)]]);
    vm_compute; reflexivity.
Defined.

(** ** Offsets in the local-model payload *)

Lemma llama_body_same_except_span text x y ms :
  same_except_span x y ->
  LlamaGuard.loop_body text x ms = LlamaGuard.loop_body text y ms.
Proof.
  intros [->|(d & d' & -> & -> & Hk)]; [reflexivity|].
  unfold LlamaGuard.loop_body, bind, eval. simpl. unfold Py.dict_get.
  rewrite (Hk "type"), (Hk "value") by discriminate. reflexivity.
Qed.

Lemma for_each_pointwise {A : Type} (R : A -> A -> Prop) (body : A -> M unit) xs ys :
  (forall x y ms, R x y -> body x ms = body y ms) ->
  Forall2 R xs ys ->
  forall ms, for_each xs body ms = for_each ys body ms.
Proof.
  intros Hb HR. induction HR as [|x y xs ys Hxy _ IH]; intros ms; simpl.
  - reflexivity.
  - unfold bind. rewrite (Hb x y ms Hxy).
    destruct (body y ms) as [[[]|e] ms1]; [apply IH | reflexivity].
Qed.

Lemma llama_body_record text item ms :
  Forall (llama_record text) ms ->
  Forall (llama_record text) (snd (LlamaGuard.loop_body text item ms)).
Proof.
  intros Hms. unfold LlamaGuard.loop_body, bind, eval, ret, append.
  destruct (Py.as_dict item) as [d|x]; simpl; [|exact Hms].
  destruct (LlamaGuard._map_type _) as [c|x]; simpl; [|exact Hms].
  destruct (Py.dict_get d "value" (PStr "")) as [| | | |v| |]; simpl; try exact Hms.
  destruct (Z.leb_spec 0 (Py.find text v)) as [Hge|_]; simpl; [|exact Hms].
  apply Forall_app. split; [exact Hms|]. constructor; [|constructor].
  split; [reflexivity|]. exists v. auto.
Qed.

(** Two items that differ in their [start] and [end] only. *)
Lemma sample_items_same_except_span :
  Forall2 same_except_span
    [PDict [("type", PStr "name"); ("value", PStr "John"); ("start", PInt 8); ("end", PInt 12)]]
    [PDict [("type", PStr "name"); ("value", PStr "John"); ("start", PInt 0); ("end", PInt 99)]].
Proof.
  constructor; [|constructor]. right. do 2 eexists. split; [reflexivity|].
  split; [reflexivity|]. intros k Hs He. cbn [Py.lookup].
  destruct (String.eqb "type" k); [reflexivity|].
  destruct (String.eqb "value" k); [reflexivity|].
  destruct (String.eqb_spec "start" k) as [E|_]; [now elim Hs|].
  destruct (String.eqb_spec "end" k) as [E|_]; [now elim He|]. reflexivity.
Qed.

(** C10, as the claim states it, fails: the result carries the response it
    was parsed from as [raw_response], so two payloads that differ in a
    [start] give results that differ there. *)
Lemma C10_raw_response_differs :
  @LlamaGuard._parse_response json.decoder llama_guard3 "Contact John Smith"
    (llama_response "[{'type':'name','value':'John','start':8,'end':12}]")
  <> @LlamaGuard._parse_response json.decoder llama_guard3 "Contact John Smith"
       (llama_response "[{'type':'name','value':'John','start':0,'end':99}]").
Proof.
  intros E.
  apply (f_equal (fun o => match o with
                           | Return r => raw_response r
                           | Raise _ => None
                           end)) in E.
  vm_compute in E. discriminate E.
Qed.

(** C10, amended.  Two local-model payloads that [json.loads] decodes to
    lists whose items agree up to their [start] and [end] fields give the
    same matches, or the same exception of the item loop, and the same model
    identifier; only the [raw_response] of the results, which is the response
    itself, can differ.  Every record of a result has the span of the first
    occurrence of its value in the text and the confidence 0.85.  A payload
    that [json.loads] does not decode is no part of the statement. *)
Theorem C10_llama_ignores_offsets `{JSON} (self : LlamaGuard.instance) (T : string)
    (r1 r2 : dict) (c1 c2 : string) (items1 items2 : list pyval) :
  Py.dict_get r1 "response" (PStr "[]") = PStr c1 ->
  decode c1 = Return (PList items1) ->
  Py.dict_get r2 "response" (PStr "[]") = PStr c2 ->
  decode c2 = Return (PList items2) ->
  Forall2 same_except_span items1 items2 ->
  result_matches (LlamaGuard._parse_response self T r1)
  = result_matches (LlamaGuard._parse_response self T r2)
  /\ result_model (LlamaGuard._parse_response self T r1)
     = result_model (LlamaGuard._parse_response self T r2)
  /\ (forall r, LlamaGuard._parse_response self T r1 = Return r ->
        Forall (fun m => confidence m = 0.85%float
                         /\ exists v, value m = PStr v
                                      /\ start m = PInt (Py.find T v)
                                      /\ end_ m = PInt (Py.find T v + Z.of_nat (String.length v)))
               (matches r)).
Proof.
  intros H1 D1 H2 D2 HR.
  rewrite (llama_parse_list self T r1 c1 _ H1 D1), (llama_parse_list self T r2 c2 _ H2 D2).
  rewrite (for_each_pointwise same_except_span (LlamaGuard.loop_body T) items1 items2
             (fun x y ms => llama_body_same_except_span T x y ms) HR).
  pose proof (for_each_invariant (llama_record T) (LlamaGuard.loop_body T) items2
                (fun x _ ms => llama_body_record T x ms) [] (Forall_nil _)) as Inv.
  destruct (for_each items2 (LlamaGuard.loop_body T) []) as [[[]|e] ms]; simpl in *.
  - split; [reflexivity|]. split; [reflexivity|].
    intros r [= <-]. simpl. eapply Forall_impl; [|exact Inv].
    intros m (Hc & v & Hv & _ & Hs & He). eauto.
  - split; [reflexivity|]. split; [reflexivity|]. discriminate.
Qed.

(** The two payloads of the counterexample give the same record, at the first
    occurrence of "John". *)
Lemma C10_llama_ignores_offsets_witness :
  result_matches
    (@LlamaGuard._parse_response json.decoder llama_guard3 "Contact John Smith"
       (llama_response "[{'type':'name','value':'John','start':8,'end':12}]"))
  = result_matches
      (@LlamaGuard._parse_response json.decoder llama_guard3 "Contact John Smith"
         (llama_response "[{'type':'name','value':'John','start':0,'end':99}]")).
Proof.
  refine (proj1 (@C10_llama_ignores_offsets json.decoder llama_guard3 "Contact John Smith"
            (llama_response "[{'type':'name','value':'John','start':8,'end':12}]")
            (llama_response "[{'type':'name','value':'John','start':0,'end':99}]")
            (json.text "[{'type':'name','value':'John','start':8,'end':12}]")
            (json.text "[{'type':'name','value':'John','start':0,'end':99}]")
            [PDict [("type", PStr "name"); ("value", PStr "John");
                    ("start", PInt 8); ("end", PInt 12)]]
            [PDict [("type", PStr "name"); ("value", PStr "John");
                    ("start", PInt 0); ("end", PInt 99)]]
            eq_refl _ eq_refl _ sample_items_same_except_span)).
  - vm_compute. reflexivity.
  - vm_compute. reflexivity.
Defined.

(** The decoding comes first: a [start] that [json.loads] refuses to read,
    an integer of 4301 digits, stops the parser with the decoder's
    [ValueError], where the same item with a [start] of one digit gives its
    record. *)
Lemma llama_long_start_raises :
  result_matches
    (@LlamaGuard._parse_response json.decoder llama_guard3 "Contact John Smith"
       (long_start_response 1))
  = Return [ {| pii_type := NAME; value := PStr "John"; start := PInt 8;
                end_ := PInt 12; confidence := 0.85%float |} ]
  /\ @LlamaGuard._parse_response json.decoder llama_guard3 "Contact John Smith"
       (long_start_response 4301)
     = Raise (ValueError (json.int_limit_message 4301)).
Proof. split; vm_compute; reflexivity. Qed.

(** * Further properties of the code *)

(** ** Slices and trailing characters *)

Lemma length_append (a b : string) :
  String.length (a ++ b) = (String.length a + String.length b)%nat.
Proof. induction a as [|c a IH]; simpl; [reflexivity | now rewrite IH]. Qed.

Lemma substring_middle pre v post :
  String.substring (String.length pre) (String.length v) (pre ++ v ++ post) = v.
Proof.
  induction pre as [|c pre IH]; simpl.
  - induction v as [|c v IHv]; simpl.
    + now destruct post.
    + now rewrite IHv.
  - exact IH.
Qed.

Lemma substring_split n m s :
  (n + m <= String.length s)%nat ->
  exists pre post,
    s = pre ++ String.substring n m s ++ post
    /\ String.length pre = n /\ String.length (String.substring n m s) = m.
Proof.
  revert s. induction n as [|n IHn]; intros s.
  - revert s. induction m as [|m IHm]; intros s Hl.
    + exists "", s. now destruct s.
    + destruct s as [|c s]; simpl in Hl; [lia|].
      destruct (IHm s ltac:(lia)) as (pre & post & E & Lp & Ls).
      destruct pre; [|discriminate]. simpl in E.
      exists "", post. simpl. rewrite Ls. now rewrite <- E.
  - intros Hl. destruct s as [|c s]; simpl in Hl; [lia|].
    destruct (IHn s ltac:(lia)) as (pre & post & E & Lp & Ls).
    exists (String c pre), post. simpl. rewrite Lp, Ls. now rewrite <- E.
Qed.

Lemma slice_bound_inside n i : 0 <= i <= n -> Py.slice_bound n i = i.
Proof. unfold Py.slice_bound. intros H. destruct (Z.ltb_spec i 0); lia. Qed.

(** A slice within the string is the part of the string at its bounds. *)
Lemma slice_inside s a b :
  0 <= a <= b -> b <= Z.of_nat (String.length s) ->
  occurs_at (Py.slice s a b) s a
  /\ Z.of_nat (String.length (Py.slice s a b)) = b - a.
Proof.
  intros Hab Hb. unfold Py.slice. cbv zeta.
  rewrite !slice_bound_inside by lia.
  destruct (substring_split (Z.to_nat a) (Z.to_nat (b - a)) s ltac:(lia))
    as (pre & post & E & Lp & Ls).
  split; [|lia]. exists pre, post. split; [exact E | lia].
Qed.

(** The slice at an occurrence of [v] is [v]. *)
Lemma slice_occurrence v t i :
  occurs_at v t i -> Py.slice t i (i + Z.of_nat (String.length v)) = v.
Proof.
  intros (pre & post & -> & <-). unfold Py.slice. cbv zeta.
  rewrite !length_append. rewrite !slice_bound_inside by lia.
  replace (Z.to_nat (Z.of_nat (String.length pre) + Z.of_nat (String.length v)
                     - Z.of_nat (String.length pre))) with (String.length v) by lia.
  rewrite Nat2Z.id. apply substring_middle.
Qed.

Lemma occurs_at_bound v t i :
  occurs_at v t i -> i + Z.of_nat (String.length v) <= Z.of_nat (String.length t).
Proof. intros (pre & post & -> & <-). rewrite !length_append. lia. Qed.

Lemma rstrip_split s c : exists k, s = Py.rstrip s c ++ repeat_char c k.
Proof.
  induction s as [|a s [k IH]]; simpl.
  - now exists O.
  - destruct (Py.rstrip s c) as [|b r] eqn:R.
    + simpl in IH. destruct (Ascii.eqb_spec a c) as [->|_].
      * exists (S k). simpl. now rewrite <- IH.
      * exists k. simpl. now rewrite <- IH.
    + exists k. simpl. simpl in IH. now rewrite <- IH.
Qed.

Lemma rstrip_no_trailing s c : ~ ends_with (Py.rstrip s c) c.
Proof.
  induction s as [|a s IH]; intros (p & E); simpl in E.
  - destruct p; discriminate.
  - destruct (Py.rstrip s c) as [|b r] eqn:R.
    + destruct (Ascii.eqb_spec a c) as [->|N].
      * destruct p; discriminate.
      * destruct p as [|x p]; simpl in E.
        -- injection E as E. now elim N.
        -- injection E as _ E. destruct p; discriminate.
    + destruct p as [|x p]; simpl in E; [discriminate|].
      injection E as _ E. apply IH. now exists p.
Qed.

Lemma rstrip_fixed s c : ~ ends_with s c -> Py.rstrip s c = s.
Proof.
  induction s as [|a s IH]; intros N; simpl; [reflexivity|].
  destruct s as [|b s].
  - simpl. destruct (Ascii.eqb_spec a c) as [->|_]; [|reflexivity].
    elim N. now exists "".
  - rewrite IH.
    + reflexivity.
    + intros (p & E). apply N. exists (String a p). simpl. now rewrite <- E.
Qed.

(** ** Blocks that only append *)

Lemma framed_ret {A : Type} (a : A) : framed (ret a).
Proof. intros ms. unfold ret. simpl. now rewrite app_nil_r. Qed.

Lemma framed_eval {A : Type} (o : outcome A) : framed (eval o).
Proof. intros ms. unfold eval. simpl. now rewrite app_nil_r. Qed.

Lemma framed_append m : framed (append m).
Proof. intros ms. reflexivity. Qed.

Lemma framed_bind {A B : Type} (m : M A) (k : A -> M B) :
  framed m -> (forall a, framed (k a)) -> framed (bind m k).
Proof.
  intros Hm Hk ms. unfold bind. rewrite (Hm ms).
  destruct (m []) as [[a|e] l]; simpl.
  - rewrite (Hk a (ms ++ l)%list), (Hk a l). simpl. now rewrite app_assoc.
  - reflexivity.
Qed.

Lemma framed_for_each {A : Type} (body : A -> M unit) xs :
  (forall x, framed (body x)) -> framed (for_each xs body).
Proof.
  intros Hb. induction xs as [|x xs IH]; simpl.
  - apply framed_ret.
  - apply framed_bind; [apply Hb | intros _; exact IH].
Qed.

Create HintDb py_framed.

#[local] Hint Resolve framed_ret framed_eval framed_append : py_framed.

Ltac framed_block :=
  repeat first
    [ apply framed_bind; [ | intros ? ]
    | apply framed_for_each; intros ?
    | match goal with |- framed (if ?b then _ else _) => destruct b end
    | match goal with |- framed (let x := _ in _) => cbv zeta end
    | solve [ auto with py_framed ] ].

Lemma llama_body_framed text item : framed (LlamaGuard.loop_body text item).
Proof. unfold LlamaGuard.loop_body. framed_block. Qed.

Lemma openai_body_framed text item : framed (OpenAIGuard.loop_body text item).
Proof. unfold OpenAIGuard.loop_body. framed_block. Qed.

Lemma bedrock_entity_framed entity : framed (BedrockGuard.entity_body entity).
Proof. unfold BedrockGuard.entity_body. framed_block. Qed.

Lemma bedrock_assessment_framed assessment :
  framed (BedrockGuard.assessment_body assessment).
Proof.
  unfold BedrockGuard.assessment_body. framed_block.
Qed.

Lemma bedrock_output_framed output : framed (BedrockGuard.output_body output).
Proof.
  unfold BedrockGuard.output_body. framed_block.
Qed.

Lemma presidio_body_framed text result : framed (PresidioGuard.loop_body text result).
Proof. unfold PresidioGuard.loop_body. framed_block. Qed.

(** A loop over two lists in a row, when both loops complete from the empty
    list: the matches of the first followed by those of the second. *)
Lemma for_each_concat {A : Type} (body : A -> M unit) xs ys l1 l2 :
  (forall x, framed (body x)) ->
  for_each xs body [] = (Return tt, l1) ->
  for_each ys body [] = (Return tt, l2) ->
  for_each (xs ++ ys)%list body [] = (Return tt, (l1 ++ l2)%list).
Proof.
  intros Hb E1 E2. rewrite for_each_app. unfold bind. rewrite E1.
  rewrite (framed_for_each body ys Hb l1), E2. reflexivity.
Qed.

(** A loop that completes appends at most one list per item: with bodies
    that append at most one record, at most as many records as items. *)
Lemma for_each_count {A : Type} (body : A -> M unit) xs :
  (forall x, framed (body x)) ->
  (forall x, (List.length (snd (body x [])) <= 1)%nat) ->
  (List.length (snd (for_each xs body [])) <= List.length xs)%nat.
Proof.
  intros Hf Hb. induction xs as [|x xs IH]; simpl; [lia|].
  unfold bind. specialize (Hb x).
  destruct (body x []) as [[[]|e] l]; simpl in *; [|lia].
  rewrite (framed_for_each body xs Hf l). simpl. rewrite length_app. lia.
Qed.

(** ** The local-model parser, on every payload *)

(** An invariant of the records that the loop body keeps holds of the
    matches of every result. *)
Lemma llama_parse_invariant `{JSON} (P : PIIMatch -> Prop) self text response r :
  (forall item ms, Forall P ms -> Forall P (snd (LlamaGuard.loop_body text item ms))) ->
  LlamaGuard._parse_response self text response = Return r ->
  Forall P (matches r).
Proof.
  intros Hb. unfold LlamaGuard._parse_response, try_except_pass, bind, eval, ret.
  destruct (json.loads _) as [v|e1].
  - destruct (Py.iter v) as [items|e2].
    + pose proof (for_each_invariant P (LlamaGuard.loop_body text) items
                    (fun x _ ms => Hb x ms) [] (Forall_nil _)) as Inv.
      destruct (for_each items _ _) as [[[]|e3] ms]; simpl in Inv.
      * intros [= <-]. exact Inv.
      * destruct e3; intros [= <-]; exact Inv.
    + destruct e2; intros [= <-]; constructor.
  - destruct e1; intros [= <-]; constructor.
Qed.

(** Every record the local-model parser returns is located in the text:
    [0 <= start <= end <= len(text)] and [text[start:end]] is the record's
    value. *)
Theorem llama_records_located `{JSON} self text response r :
  LlamaGuard._parse_response self text response = Return r ->
  Forall (located text) (matches r).
Proof.
  intros Hr.
  apply (llama_parse_invariant (llama_record text) self text response r) in Hr.
  - eapply Forall_impl; [|exact Hr].
    intros m (_ & v & Hv & Hge & Hs & He).
    pose proof (find_occurs _ _ Hge) as Hocc.
    exists v, (Py.find text v). repeat split; auto.
    + now apply occurs_at_bound.
    + now apply slice_occurrence.
  - intros item ms. apply llama_body_record.
Qed.

Lemma llama_records_located_witness :
  Forall (located "Contact John Smith at john@example.com")
    [ {| pii_type := NAME; value := PStr "John Smith";
         start := PInt 8; end_ := PInt 18; confidence := 0.85%float |};
      {| pii_type := EMAIL; value := PStr "john@example.com";
         start := PInt 22; end_ := PInt 38; confidence := 0.85%float |} ].
Proof.
  apply (@llama_records_located json.decoder llama_guard3
           "Contact John Smith at john@example.com"
           (llama_response
              "[{'type':'name','value':'John Smith'}, {'type':'email','value':'john@example.com'}]")
           {| matches :=
                [ {| pii_type := NAME; value := PStr "John Smith";
                     start := PInt 8; end_ := PInt 18; confidence := 0.85%float |};
                  {| pii_type := EMAIL; value := PStr "john@example.com";
                     start := PInt 22; end_ := PInt 38; confidence := 0.85%float |} ];
              raw_response :=
                Some (llama_response
                  "[{'type':'name','value':'John Smith'}, {'type':'email','value':'john@example.com'}]");
              model_used := Some "llama-guard3" |}).
  vm_compute. reflexivity.
Defined.

(** A value that occurs in the text, however often, is reported at its
    lowest index; two items with the same value get the same span, so a later
    occurrence is never reported. *)
Theorem llama_reports_first_occurrence (T V ty1 ty2 : string) (d1 d2 : dict) :
  occurs_in V T ->
  Py.lookup d1 "value" = Some (PStr V) ->
  Py.lookup d2 "value" = Some (PStr V) ->
  Py.dict_get d1 "type" (PStr "") = PStr ty1 ->
  Py.dict_get d2 "type" (PStr "") = PStr ty2 ->
  let i := Py.find T V in
  occurs_at V T i
  /\ (forall j, occurs_at V T j -> i <= j)
  /\ for_each [PDict d1; PDict d2] (LlamaGuard.loop_body T) []
     = (Return tt,
        [ {| pii_type := table_get LlamaGuard.type_map (Py.lower ty1) CUSTOM;
             value := PStr V; start := PInt i;
             end_ := PInt (i + Z.of_nat (String.length V));
             confidence := 0.85%float |};
          {| pii_type := table_get LlamaGuard.type_map (Py.lower ty2) CUSTOM;
             value := PStr V; start := PInt i;
             end_ := PInt (i + Z.of_nat (String.length V));
             confidence := 0.85%float |} ]).
Proof.
  intros Hin Hv1 Hv2 Ht1 Ht2 i. subst i.
  assert (Hge : 0 <= Py.find T V).
  { pose proof (find_range T V). destruct (Z.eq_dec (Py.find T V) (-1)) as [E|N]; [|lia].
    apply find_absent in E. contradiction. }
  split; [now apply find_occurs|]. split.
  - intros j Hj. unfold Py.find.
    destruct (find_from_spec V T 0) as [[_ N] | (k & E & _ & Mk)].
    + elim (N j Hj).
    + specialize (Mk j Hj). lia.
  - simpl. unfold bind.
    rewrite (llama_body_str T d1 ty1 V [] Ht1 (dict_get_lookup _ _ _ _ Hv1)).
    destruct (Z.leb_spec 0 (Py.find T V)); [|lia].
    rewrite (llama_body_str T d2 ty2 V _ Ht2 (dict_get_lookup _ _ _ _ Hv2)).
    destruct (Z.leb_spec 0 (Py.find T V)); [|lia]. reflexivity.
Qed.

Lemma llama_reports_first_occurrence_witness :
  for_each [PDict [("type", PStr "name"); ("value", PStr "Ann")];
            PDict [("type", PStr "name"); ("value", PStr "Ann")]]
    (LlamaGuard.loop_body "Ann met Ann") []
  = (Return tt,
     [ {| pii_type := NAME; value := PStr "Ann"; start := PInt 0; end_ := PInt 3;
          confidence := 0.85%float |};
       {| pii_type := NAME; value := PStr "Ann"; start := PInt 0; end_ := PInt 3;
          confidence := 0.85%float |} ]).
Proof.
  apply (proj2 (proj2 (llama_reports_first_occurrence "Ann met Ann" "Ann" "name" "name"
           [("type", PStr "name"); ("value", PStr "Ann")]
           [("type", PStr "name"); ("value", PStr "Ann")]
           (ex_intro _ "" (ex_intro _ " met Ann" eq_refl))
           eq_refl eq_refl eq_refl eq_refl))).
Defined.

Lemma llama_body_at_most_one text item :
  (List.length (snd (LlamaGuard.loop_body text item [])) <= 1)%nat.
Proof.
  unfold LlamaGuard.loop_body, bind, eval, ret, append.
  destruct (Py.as_dict item) as [d|e]; simpl; [|lia].
  destruct (LlamaGuard._map_type _) as [c|e]; simpl; [|lia].
  destruct (Py.str_find _ _) as [i|e]; simpl; [|lia].
  destruct (Z.leb 0 i); simpl; [|lia].
  destruct (Py.len _) as [n|e]; simpl; lia.
Qed.

Lemma openai_body_at_most_one text item :
  (List.length (snd (OpenAIGuard.loop_body text item [])) <= 1)%nat.
Proof.
  unfold OpenAIGuard.loop_body, bind, eval, ret, append.
  repeat match goal with
         | |- context [match ?o with Return _ => _ | Raise _ => _ end] => destruct o; simpl
         | |- context [if ?b then _ else _] => destruct b; simpl
         end; lia.
Qed.

(** The matches of two payloads in a row: a payload whose items are those of
    one payload followed by those of another gives the matches of the first
    followed by the matches of the second, when the parser returns on both. *)
Theorem llama_payload_concat `{JSON} self T (r1 r2 r12 : dict) (c1 c2 c12 : string)
    (items1 items2 : list pyval) (res1 res2 : GuardResult) :
  Py.dict_get r1 "response" (PStr "[]") = PStr c1 ->
  decode c1 = Return (PList items1) ->
  Py.dict_get r2 "response" (PStr "[]") = PStr c2 ->
  decode c2 = Return (PList items2) ->
  Py.dict_get r12 "response" (PStr "[]") = PStr c12 ->
  decode c12 = Return (PList (items1 ++ items2)) ->
  LlamaGuard._parse_response self T r1 = Return res1 ->
  LlamaGuard._parse_response self T r2 = Return res2 ->
  LlamaGuard._parse_response self T r12
  = Return {| matches := (matches res1 ++ matches res2)%list;
              raw_response := Some r12;
              model_used := Some (LlamaGuard.model self) |}.
Proof.
  intros H1 D1 H2 D2 H12 D12.
  rewrite (llama_parse_list self T r1 c1 _ H1 D1), (llama_parse_list self T r2 c2 _ H2 D2),
    (llama_parse_list self T r12 c12 _ H12 D12).
  destruct (for_each items1 _ _) as [[[]|e1] l1] eqn:E1; [|discriminate].
  destruct (for_each items2 _ _) as [[[]|e2] l2] eqn:E2; [|discriminate].
  intros [= <-] [= <-]. simpl.
  rewrite (for_each_concat (LlamaGuard.loop_body T) items1 items2 l1 l2
             (llama_body_framed T) E1 E2).
  reflexivity.
Qed.

Lemma llama_payload_concat_witness :
  @LlamaGuard._parse_response json.decoder llama_guard3 "Contact John Smith"
    (llama_response "[{'type':'name','value':'John'}, {'type':'name','value':'Smith'}]")
  = Return {| matches :=
                [ {| pii_type := NAME; value := PStr "John"; start := PInt 8;
                     end_ := PInt 12; confidence := 0.85%float |};
                  {| pii_type := NAME; value := PStr "Smith"; start := PInt 13;
                     end_ := PInt 18; confidence := 0.85%float |} ];
              raw_response :=
                Some (llama_response
                        "[{'type':'name','value':'John'}, {'type':'name','value':'Smith'}]");
              model_used := Some "llama-guard3" |}.
Proof.
  apply (@llama_payload_concat json.decoder llama_guard3 "Contact John Smith"
           (llama_response "[{'type':'name','value':'John'}]")
           (llama_response "[{'type':'name','value':'Smith'}]")
           (llama_response "[{'type':'name','value':'John'}, {'type':'name','value':'Smith'}]")
           (json.text "[{'type':'name','value':'John'}]")
           (json.text "[{'type':'name','value':'Smith'}]")
           (json.text "[{'type':'name','value':'John'}, {'type':'name','value':'Smith'}]")
           [PDict [("type", PStr "name"); ("value", PStr "John")]]
           [PDict [("type", PStr "name"); ("value", PStr "Smith")]]
           {| matches := [ {| pii_type := NAME; value := PStr "John"; start := PInt 8;
                              end_ := PInt 12; confidence := 0.85%float |} ];
              raw_response := Some (llama_response "[{'type':'name','value':'John'}]");
              model_used := Some "llama-guard3" |}
           {| matches := [ {| pii_type := NAME; value := PStr "Smith"; start := PInt 13;
                              end_ := PInt 18; confidence := 0.85%float |} ];
              raw_response := Some (llama_response "[{'type':'name','value':'Smith'}]");
              model_used := Some "llama-guard3" |});
    vm_compute; reflexivity.
Defined.

(** At most one record per item: a result of the local-model parser, and
    one of the hosted-LLM parser, has no more matches than the payload has
    items. *)
Theorem parsers_at_most_one_record_per_item `{JSON} (T : string) (items : list pyval) :
  (forall self response content r,
     Py.dict_get response "response" (PStr "[]") = PStr content ->
     decode content = Return (PList items) ->
     LlamaGuard._parse_response self T response = Return r ->
     (List.length (matches r) <= List.length items)%nat)
  /\ (forall self response raw content r,
        OpenAIGuard.first_content response = Return (PStr raw) ->
        decode raw = Return content ->
        OpenAIGuard.select_pii_list content = Return (PList items) ->
        OpenAIGuard._parse_response self T response = Return r ->
        (List.length (matches r) <= List.length items)%nat).
Proof.
  split.
  - intros self response content r Hc Hd.
    rewrite (llama_parse_list self T response content _ Hc Hd).
    pose proof (for_each_count (LlamaGuard.loop_body T) items (llama_body_framed T)
                  (llama_body_at_most_one T)) as Hn.
    destruct (for_each items _ _) as [[[]|e] ms]; [|discriminate].
    intros [= <-]. exact Hn.
  - intros self response raw content r Hr Hd Hs.
    rewrite (openai_parse_list self T response raw content _ Hr Hd Hs).
    pose proof (for_each_count (OpenAIGuard.loop_body T) items (openai_body_framed T)
                  (openai_body_at_most_one T)) as Hn.
    destruct (for_each items _ _) as [[[]|e] ms]; [|discriminate].
    intros [= <-]. exact Hn.
Qed.

Lemma parsers_at_most_one_record_per_item_witness :
  (List.length
     [ {| pii_type := NAME; value := PStr "John"; start := PInt 8;
          end_ := PInt 12; confidence := 0.85%float |} ]
   <= List.length [PDict [("type", PStr "name"); ("value", PStr "John")];
                   PDict [("type", PStr "name"); ("value", PStr "Jane")]])%nat.
Proof.
  apply (proj1 (@parsers_at_most_one_record_per_item json.decoder "Contact John Smith"
                  [PDict [("type", PStr "name"); ("value", PStr "John")];
                   PDict [("type", PStr "name"); ("value", PStr "Jane")]])
           llama_guard3
           (llama_response "[{'type':'name','value':'John'}, {'type':'name','value':'Jane'}]")
           (json.text "[{'type':'name','value':'John'}, {'type':'name','value':'Jane'}]")
           {| matches := [ {| pii_type := NAME; value := PStr "John"; start := PInt 8;
                              end_ := PInt 12; confidence := 0.85%float |} ];
              raw_response :=
                Some (llama_response
                        "[{'type':'name','value':'John'}, {'type':'name','value':'Jane'}]");
              model_used := Some "llama-guard3" |});
    vm_compute; reflexivity.
Defined.

(** A loop raises when one of its items makes the body raise from every
    list. *)
Lemma for_each_raises_at {A : Type} (body : A -> M unit) xs x :
  In x xs ->
  (forall ms, exists e, body x ms = (Raise e, ms)) ->
  forall ms, exists e ms', for_each xs body ms = (Raise e, ms').
Proof.
  intros Hin Hx. induction xs as [|y xs IH]; [destruct Hin|].
  intros ms. simpl. unfold bind. destruct Hin as [->|Hin].
  - destruct (Hx ms) as [e ->]. now exists e, ms.
  - destruct (body y ms) as [[[]|e] ms1].
    + apply IH, Hin.
    + now exists e, ms1.
Qed.

(** One item that is not an object is fatal to the whole payload: both
    parsers raise an [AttributeError] or a [TypeError] and return nothing,
    whatever the other items are. *)
Theorem non_object_item_is_fatal `{JSON} (T : string) (items : list pyval) (x : pyval) :
  In x items ->
  (forall d, x <> PDict d) ->
  (forall self response content,
     Py.dict_get response "response" (PStr "[]") = PStr content ->
     decode content = Return (PList items) ->
     exists e, LlamaGuard._parse_response self T response = Raise e /\ uncaught e)
  /\ (forall self response raw content,
        OpenAIGuard.first_content response = Return (PStr raw) ->
        decode raw = Return content ->
        OpenAIGuard.select_pii_list content = Return (PList items) ->
        exists e, OpenAIGuard._parse_response self T response = Raise e /\ uncaught e).
Proof.
  intros Hin Hx.
  assert (Hd : Py.as_dict x = Raise AttributeError).
  { destruct x; try reflexivity. now elim (Hx d). }
  split.
  - intros self response content Hc Hdec.
    rewrite (llama_parse_list self T response content _ Hc Hdec).
    destruct (for_each_raises_at (LlamaGuard.loop_body T) items x Hin) with (ms := @nil PIIMatch)
      as (e & ms' & E).
    { intros ms. exists AttributeError.
      unfold LlamaGuard.loop_body, bind, eval. now rewrite Hd. }
    rewrite E. exists e. split; [reflexivity|].
    apply for_each_raise in E as (y & ms1 & _ & B). eapply llama_body_raises, B.
  - intros self response raw content Hr Hdec Hs.
    rewrite (openai_parse_list self T response raw content _ Hr Hdec Hs).
    destruct (for_each_raises_at (OpenAIGuard.loop_body T) items x Hin) with (ms := @nil PIIMatch)
      as (e & ms' & E).
    { intros ms. exists AttributeError.
      unfold OpenAIGuard.loop_body, bind, eval. now rewrite Hd. }
    rewrite E. exists e. split; [reflexivity|].
    apply for_each_raise in E as (y & ms1 & _ & B). eapply openai_body_raises, B.
Qed.

Lemma non_object_item_is_fatal_witness :
  exists e,
    @LlamaGuard._parse_response json.decoder llama_guard3 "Contact John Smith"
      (llama_response "[{'type':'name','value':'John'}, 'Smith']") = Raise e
    /\ uncaught e.
Proof.
  apply (proj1 (@non_object_item_is_fatal json.decoder "Contact John Smith"
                  [PDict [("type", PStr "name"); ("value", PStr "John")]; PStr "Smith"]
                  (PStr "Smith") (or_intror (or_introl eq_refl))
                  (fun d E => eq_ind (PStr "Smith")
                                (fun v => match v with PStr _ => True | _ => False end)
                                I (PDict d) E))
           llama_guard3
           (llama_response "[{'type':'name','value':'John'}, 'Smith']")
           (json.text "[{'type':'name','value':'John'}, 'Smith']")).
  - reflexivity.
  - vm_compute. reflexivity.
Defined.

(** ** Content that cannot be used *)

(** Content that the decoder rejects is not an error: each of the two
    JSON parsers returns a result with zero matches, which still carries the
    raw response and the model name. *)
Theorem undecodable_content_gives_no_match `{JSON} (T content : string) :
  decode content = Raise JSONDecodeError ->
  (forall self response,
     Py.dict_get response "response" (PStr "[]") = PStr content ->
     LlamaGuard._parse_response self T response
     = Return {| matches := []; raw_response := Some response;
                 model_used := Some (LlamaGuard.model self) |})
  /\ (forall self response,
        OpenAIGuard.first_content response = Return (PStr content) ->
        OpenAIGuard._parse_response self T response
        = Return {| matches := []; raw_response := Some [("content", PStr content)];
                    model_used := Some (OpenAIGuard.model self) |}).
Proof.
  intros Hd. split.
  - intros self response Hc. now apply llama_invalid_json with (content := content).
  - intros self response Hr. now apply openai_invalid_json.
Qed.

Lemma undecodable_content_gives_no_match_witness :
  @OpenAIGuard._parse_response json.decoder gpt_4o_mini "Contact John Smith"
    (openai_response "{'pii': [")
  = Return {| matches := []; raw_response := Some [("content", PStr (json.text "{'pii': ["))];
              model_used := Some "gpt-4o-mini" |}.
Proof.
  apply (proj2 (@undecodable_content_gives_no_match json.decoder "Contact John Smith"
                  (json.text "{'pii': [") eq_refl) gpt_4o_mini).
  reflexivity.
Defined.

(** Missing keys are not errors either.  A local-model response without a
    [response] field is read as the empty array, and a hosted-LLM object
    with neither [pii] nor [results] is taken itself and is no list: both
    give zero matches. *)
Theorem missing_keys_give_no_match `{JSON} (T : string) :
  decode "[]" = Return (PList []) ->
  (forall self response,
     Py.lookup response "response" = None ->
     LlamaGuard._parse_response self T response
     = Return {| matches := []; raw_response := Some response;
                 model_used := Some (LlamaGuard.model self) |})
  /\ (forall self response raw d,
        OpenAIGuard.first_content response = Return (PStr raw) ->
        decode raw = Return (PDict d) ->
        Py.lookup d "pii" = None ->
        Py.lookup d "results" = None ->
        OpenAIGuard._parse_response self T response
        = Return {| matches := []; raw_response := Some [("content", PStr raw)];
                    model_used := Some (OpenAIGuard.model self) |}).
Proof.
  intros Hempty. split.
  - intros self response Hm.
    rewrite (llama_parse_list self T response "[]" [] (dict_get_missing _ _ _ Hm) Hempty).
    reflexivity.
  - intros self response raw d Hr Hd Hp Hres.
    apply (openai_parse_not_list self T response raw (PDict d) (PDict d) Hr Hd);
      [|reflexivity].
    unfold OpenAIGuard.select_pii_list. now rewrite !dict_get_missing.
Qed.

Lemma missing_keys_give_no_match_witness :
  @LlamaGuard._parse_response json.decoder llama_guard3 "Contact John Smith"
    [("model", PStr "llama-guard3"); ("done", PBool true)]
  = Return {| matches := [];
              raw_response := Some [("model", PStr "llama-guard3"); ("done", PBool true)];
              model_used := Some "llama-guard3" |}.
Proof.
  apply (proj1 (@missing_keys_give_no_match json.decoder "Contact John Smith" eq_refl)).
  reflexivity.
Defined.

(** In the hosted-LLM object a [pii] key hides the [results] key: when [pii]
    holds something that is no list (a null, say), the result has zero
    matches, whatever [results] holds. *)
Theorem openai_pii_hides_results `{JSON} self (T raw : string) response (d : dict) (v : pyval) :
  OpenAIGuard.first_content response = Return (PStr raw) ->
  decode raw = Return (PDict d) ->
  Py.lookup d "pii" = Some v ->
  Py.is_list v = false ->
  OpenAIGuard._parse_response self T response
  = Return {| matches := []; raw_response := Some [("content", PStr raw)];
              model_used := Some (OpenAIGuard.model self) |}.
Proof.
  intros Hr Hd Hp Hl.
  apply (openai_parse_not_list self T response raw (PDict d) v Hr Hd); [|exact Hl].
  unfold OpenAIGuard.select_pii_list. now rewrite (dict_get_lookup _ _ _ _ Hp).
Qed.

Lemma openai_pii_hides_results_witness :
  @OpenAIGuard._parse_response json.decoder gpt_4o_mini "Contact John Smith"
    (openai_response "{'pii': null, 'results': [{'type':'name','value':'John'}]}")
  = Return {| matches := [];
              raw_response :=
                Some [("content",
                       PStr (json.text
                               "{'pii': null, 'results': [{'type':'name','value':'John'}]}"))];
              model_used := Some "gpt-4o-mini" |}.
Proof.
  apply (@openai_pii_hides_results json.decoder gpt_4o_mini "Contact John Smith"
           (json.text "{'pii': null, 'results': [{'type':'name','value':'John'}]}")
           (openai_response "{'pii': null, 'results': [{'type':'name','value':'John'}]}")
           [("pii", PNone);
            ("results", PList [PDict [("type", PStr "name"); ("value", PStr "John")]])]
           PNone); vm_compute; reflexivity.
Defined.

(** ** What can escape *)

Lemma bedrock_map_type_raises x : raises_uncaught (BedrockGuard._map_bedrock_type x).
Proof. intros e. destruct x; simpl; intros [= <-]; now right. Qed.

Lemma bedrock_entity_raises entity ms e ms' :
  BedrockGuard.entity_body entity ms = (Raise e, ms') -> uncaught e.
Proof.
  unfold BedrockGuard.entity_body, bind, eval, append. intros B.
  destruct (Py.as_dict entity) as [d|x] eqn:D; lazy beta iota in B.
  - destruct (BedrockGuard._map_bedrock_type _) as [c|x] eqn:Mt; lazy beta iota in B;
      [discriminate|].
    injection B as <- _. eapply bedrock_map_type_raises, Mt.
  - injection B as <- _. eapply as_dict_raises, D.
Qed.

Lemma bedrock_assessment_raises assessment ms e ms' :
  BedrockGuard.assessment_body assessment ms = (Raise e, ms') -> uncaught e.
Proof.
  unfold BedrockGuard.assessment_body, bind, eval. intros B.
  destruct (Py.as_dict assessment) as [a|x] eqn:D1; lazy beta iota in B;
    [|injection B as <- _; eapply as_dict_raises, D1].
  destruct (Py.as_dict (Py.dict_get a _ _)) as [s|x] eqn:D2; lazy beta iota in B;
    [|injection B as <- _; eapply as_dict_raises, D2].
  destruct (Py.iter _) as [entities|x] eqn:I; lazy beta iota in B;
    [|injection B as <- _; eapply iter_raises, I].
  apply for_each_raise in B as (y & ms1 & _ & B). eapply bedrock_entity_raises, B.
Qed.

Lemma bedrock_output_raises output ms e ms' :
  BedrockGuard.output_body output ms = (Raise e, ms') -> uncaught e.
Proof.
  unfold BedrockGuard.output_body, bind, eval. intros B.
  destruct (Py.as_dict output) as [o|x] eqn:D; lazy beta iota in B;
    [|injection B as <- _; eapply as_dict_raises, D].
  destruct (Py.iter _) as [items|x] eqn:I; lazy beta iota in B;
    [|injection B as <- _; eapply iter_raises, I].
  apply for_each_raise in B as (y & ms1 & _ & B). eapply bedrock_assessment_raises, B.
Qed.



(** ** The hosted-LLM parser, on every payload *)

Lemma openai_parse_invariant `{JSON} (P : PIIMatch -> Prop) self text response r :
  (forall item ms, Forall P ms -> Forall P (snd (OpenAIGuard.loop_body text item ms))) ->
  OpenAIGuard._parse_response self text response = Return r ->
  Forall P (matches r).
Proof.
  intros Hb. unfold OpenAIGuard._parse_response, try_except_pass, bind, eval, ret.
  destruct (OpenAIGuard.first_content response) as [raw|e0]; [|destruct e0; discriminate].
  destruct (json.loads raw) as [content|e1];
    [|destruct e1; intros [= <-]; constructor].
  destruct (OpenAIGuard.select_pii_list content) as [selected|e2];
    [|destruct e2; intros [= <-]; constructor].
  destruct (Py.is_list selected); [|intros [= <-]; constructor].
  destruct (Py.iter selected) as [items|e3];
    [|destruct e3; intros [= <-]; constructor].
  pose proof (for_each_invariant P (OpenAIGuard.loop_body text) items
                (fun x _ ms => Hb x ms) [] (Forall_nil _)) as Inv.
  destruct (for_each items _ _) as [[[]|e4] ms]; simpl in Inv.
  - intros [= <-]. exact Inv.
  - destruct e4; intros [= <-]; exact Inv.
Qed.

(** Every record the hosted-LLM parser returns has a string value that is
    not empty, a [start] that compares as at least 0 (so never a negative
    offset), and the confidence 0.90. *)
Theorem openai_records_checked `{JSON} self text response r :
  OpenAIGuard._parse_response self text response = Return r ->
  Forall (fun m => (exists v, value m = PStr v /\ v <> "")
                   /\ Py.ge0 (start m) = Return true
                   /\ confidence m = 0.90%float)
         (matches r).
Proof.
  apply openai_parse_invariant. intros item ms Hms.
  destruct item as [| | | | | |d];
    try (unfold OpenAIGuard.loop_body, bind, eval; simpl; exact Hms).
  destruct (Py.dict_get d "type" (PStr "")) as [| | | |ty| |] eqn:Hty;
    try (unfold OpenAIGuard.loop_body, bind, eval; simpl; rewrite Hty; exact Hms).
  destruct (Py.dict_get d "value" (PStr "")) as [| | | |v| |] eqn:Hv;
    try (unfold OpenAIGuard.loop_body, bind, eval; simpl; rewrite Hty, Hv; exact Hms).
  destruct (Py.ge0 (Py.dict_get d "start" (PInt (Py.find text v)))) as [ok|x] eqn:G.
  - rewrite (openai_body_str text d ty v ok ms Hty Hv G).
    destruct (String.eqb_spec v "") as [->|Hne]; [exact Hms|].
    destruct ok; [|exact Hms]. simpl.
    apply Forall_app. split; [exact Hms|]. constructor; [|constructor]. simpl.
    split; [now exists v|]. split; [exact G | reflexivity].
  - unfold OpenAIGuard.loop_body, bind, eval. simpl. rewrite Hty, Hv. simpl.
    rewrite G. exact Hms.
Qed.

Lemma openai_records_checked_witness :
  Forall (fun m => (exists v, value m = PStr v /\ v <> "")
                   /\ Py.ge0 (start m) = Return true
                   /\ confidence m = 0.90%float)
    [ {| pii_type := NAME; value := PStr "John"; start := PInt 8; end_ := PInt 12;
         confidence := 0.90%float |} ].
Proof.
  apply (@openai_records_checked json.decoder gpt_4o_mini "Contact John Smith"
           (openai_response
              "{'pii': [{'type':'name','value':'John'}, {'type':'name','value':'', 'start': 3}]}")
           {| matches := [ {| pii_type := NAME; value := PStr "John"; start := PInt 8;
                              end_ := PInt 12; confidence := 0.90%float |} ];
              raw_response :=
                Some [("content",
                       PStr (json.text
                         "{'pii': [{'type':'name','value':'John'}, {'type':'name','value':'', 'start': 3}]}"))];
              model_used := Some "gpt-4o-mini" |}).
  vm_compute. reflexivity.
Defined.

(** An item that supplies one offset only.  With a [start] and no [end] the
    end is the supplied start plus the length of the value; with an [end]
    and no [start] the start is found by search and the end is kept as
    supplied. *)
Theorem openai_single_offset (T ty v : string) (item : dict) (ms : list PIIMatch) :
  Py.dict_get item "type" (PStr "") = PStr ty ->
  Py.lookup item "value" = Some (PStr v) ->
  v <> "" ->
  (forall n, Py.lookup item "start" = Some (PInt n) -> Py.lookup item "end" = None ->
             0 <= n ->
             OpenAIGuard.loop_body T (PDict item) ms
             = (Return tt,
                (ms ++ [ {| pii_type := table_get OpenAIGuard.type_map (Py.lower ty) CUSTOM;
                            value := PStr v; start := PInt n;
                            end_ := PInt (n + Z.of_nat (String.length v));
                            confidence := 0.90%float |} ])%list))
  /\ (forall e, Py.lookup item "start" = None -> Py.lookup item "end" = Some e ->
                occurs_in v T ->
                OpenAIGuard.loop_body T (PDict item) ms
                = (Return tt,
                   (ms ++ [ {| pii_type := table_get OpenAIGuard.type_map (Py.lower ty) CUSTOM;
                               value := PStr v; start := PInt (Py.find T v);
                               end_ := e;
                               confidence := 0.90%float |} ])%list)).
Proof.
  intros Hty Hv Hne. pose proof (dict_get_lookup _ _ (PStr "") _ Hv) as Hv'.
  assert (Hb : String.eqb v "" = false) by now apply String.eqb_neq.
  split.
  - intros n Hs He Hn.
    pose proof (dict_get_lookup _ _ (PInt (Py.find T v)) _ Hs) as Hs'.
    rewrite (openai_body_str T item ty v true ms Hty Hv').
    + rewrite Hb. simpl. rewrite Hs'. rewrite (dict_get_missing _ _ _ He). reflexivity.
    + rewrite Hs'. simpl. f_equal. now apply Z.leb_le.
  - intros e Hs He Hin.
    assert (Hge : 0 <= Py.find T v).
    { pose proof (find_range T v). destruct (Z.eq_dec (Py.find T v) (-1)) as [E|N]; [|lia].
      apply find_absent in E. contradiction. }
    rewrite (openai_body_str T item ty v true ms Hty Hv').
    + rewrite Hb. simpl. rewrite (dict_get_missing _ _ _ Hs).
      now rewrite (dict_get_lookup _ _ _ _ He).
    + rewrite (dict_get_missing _ _ _ Hs). simpl. f_equal. now apply Z.leb_le.
Qed.

Lemma openai_single_offset_witness :
  OpenAIGuard.loop_body "Contact John Smith"
    (PDict [("type", PStr "name"); ("value", PStr "Smith"); ("start", PInt 2)]) []
  = (Return tt, [ {| pii_type := NAME; value := PStr "Smith"; start := PInt 2;
                     end_ := PInt 7; confidence := 0.90%float |} ]).
Proof.
  apply (proj1 (openai_single_offset "Contact John Smith" "name" "Smith"
                  [("type", PStr "name"); ("value", PStr "Smith"); ("start", PInt 2)] []
                  eq_refl eq_refl
                  (fun E => eq_ind "Smith"
                              (fun s => match s with EmptyString => False | _ => True end)
                              I "" E))
           2 eq_refl eq_refl).
  lia.
Defined.

(** What the hosted-LLM parser drops without an error: an item whose
    supplied [start] is a negative integer, though its value is in the text,
    and an item whose value is empty or missing, though it supplies
    offsets. *)
Theorem openai_dropped_items (T ty : string) (item : dict) (ms : list PIIMatch) :
  Py.dict_get item "type" (PStr "") = PStr ty ->
  (forall v n, Py.lookup item "value" = Some (PStr v) ->
               Py.lookup item "start" = Some (PInt n) -> n < 0 ->
               OpenAIGuard.loop_body T (PDict item) ms = (Return tt, ms))
  /\ (forall n, Py.dict_get item "value" (PStr "") = PStr "" ->
                Py.lookup item "start" = Some (PInt n) ->
                OpenAIGuard.loop_body T (PDict item) ms = (Return tt, ms)).
Proof.
  intros Hty. split.
  - intros v n Hv Hs Hn.
    rewrite (openai_body_str T item ty v false ms Hty (dict_get_lookup _ _ _ _ Hv)).
    + now rewrite andb_false_r.
    + rewrite (dict_get_lookup _ _ _ _ Hs). simpl. f_equal. now apply Z.leb_gt.
  - intros n Hv Hs.
    rewrite (openai_body_str T item ty "" (Z.leb 0 n) ms Hty Hv).
    + reflexivity.
    + now rewrite (dict_get_lookup _ _ _ _ Hs).
Qed.

Lemma openai_dropped_items_witness :
  OpenAIGuard.loop_body "Contact John Smith"
    (PDict [("type", PStr "name"); ("value", PStr "John"); ("start", PInt (-1))]) []
  = (Return tt, []).
Proof.
  apply (proj1 (openai_dropped_items "Contact John Smith" "name"
                  [("type", PStr "name"); ("value", PStr "John"); ("start", PInt (-1))] []
                  eq_refl)
           "John" (-1) eq_refl eq_refl).
  lia.
Defined.

(** Supplied offsets are not checked against the text: for an item that
    carries both [start] and [end] the loop body does the same whatever the
    text is, so the record can carry a span at which the value is not. *)
Theorem openai_supplied_offsets_ignore_text (T1 T2 ty v : string) (item : dict)
    (s e : pyval) (ms : list PIIMatch) :
  Py.dict_get item "type" (PStr "") = PStr ty ->
  Py.lookup item "value" = Some (PStr v) ->
  Py.lookup item "start" = Some s ->
  Py.lookup item "end" = Some e ->
  OpenAIGuard.loop_body T1 (PDict item) ms = OpenAIGuard.loop_body T2 (PDict item) ms.
Proof.
  intros Hty Hv Hs He.
  pose proof (dict_get_lookup _ _ (PStr "") _ Hv) as Hv'.
  unfold OpenAIGuard.loop_body, bind, eval, ret, append. simpl.
  rewrite Hty, Hv'. simpl.
  rewrite (dict_get_lookup _ _ (PInt (Py.find T1 v)) _ Hs),
    (dict_get_lookup _ _ (PInt (Py.find T2 v)) _ Hs).
  reflexivity.
Qed.

Lemma openai_supplied_offsets_ignore_text_witness :
  OpenAIGuard.loop_body "Contact John Smith"
    (PDict [("type", PStr "name"); ("value", PStr "Smith"); ("start", PInt 2); ("end", PInt 5)])
    []
  = OpenAIGuard.loop_body "no such name here"
      (PDict [("type", PStr "name"); ("value", PStr "Smith"); ("start", PInt 2);
              ("end", PInt 5)])
      [].
Proof.
  apply (openai_supplied_offsets_ignore_text "Contact John Smith" "no such name here"
           "name" "Smith"
           [("type", PStr "name"); ("value", PStr "Smith"); ("start", PInt 2); ("end", PInt 5)]
           (PInt 2) (PInt 5) [] eq_refl eq_refl eq_refl eq_refl).
Defined.

(** ** The managed-cloud parser, on well-shaped responses *)

Lemma bedrock_entities_loop (es : list dict) ms :
  Forall (fun e => exists c,
            BedrockGuard._map_bedrock_type (Py.dict_get e "type" (PStr "UNKNOWN")) = Return c)
         es ->
  for_each (map PDict es) BedrockGuard.entity_body ms
  = (Return tt, (ms ++ map bedrock_match es)%list).
Proof.
  intros Hes. revert ms. induction Hes as [|e es [c Hc] _ IH]; intros ms; simpl.
  - unfold ret. now rewrite app_nil_r.
  - unfold bind at 1. unfold BedrockGuard.entity_body at 1, bind, eval, append. simpl.
    rewrite Hc. rewrite IH. unfold bedrock_match at 2. rewrite Hc.
    now rewrite <- app_assoc.
Qed.

(** One record per entity, in the order of the response: a response with one
    output and one assessment whose entities are objects with a type that
    can be looked up (a string, a number, a null, or none at all) gives
    exactly the records of its entities. *)
Theorem bedrock_one_record_per_entity (T : string) (response o a s : dict) (es : list dict) :
  Py.lookup response "outputs" = Some (PList [PDict o]) ->
  Py.lookup o "assessments" = Some (PList [PDict a]) ->
  Py.lookup a "sensitiveInformationPolicy" = Some (PDict s) ->
  Py.lookup s "piiEntities" = Some (PList (map PDict es)) ->
  Forall (fun e => exists c,
            BedrockGuard._map_bedrock_type (Py.dict_get e "type" (PStr "UNKNOWN")) = Return c)
         es ->
  BedrockGuard._parse_response T response
  = Return {| matches := map bedrock_match es;
              raw_response := Some response;
              model_used := Some "bedrock-guardrails" |}.
Proof.
  intros Ho Ha Hs He Hes.
  unfold BedrockGuard._parse_response, bind, eval.
  rewrite (dict_get_lookup _ _ _ _ Ho). simpl. unfold bind.
  unfold BedrockGuard.output_body at 1, bind, eval. simpl.
  rewrite (dict_get_lookup _ _ _ _ Ha). simpl. unfold bind.
  unfold BedrockGuard.assessment_body at 1, bind, eval. simpl.
  rewrite (dict_get_lookup _ _ _ _ Hs). simpl.
  rewrite (dict_get_lookup _ _ _ _ He). simpl.
  rewrite (bedrock_entities_loop es [] Hes). reflexivity.
Qed.

Lemma bedrock_one_record_per_entity_witness :
  BedrockGuard._parse_response "Contact John Smith" sample_guardrail_response
  = Return {| matches :=
                [ {| pii_type := NAME; value := PStr "John Smith"; start := PInt 0;
                     end_ := PInt 0; confidence := 0.95%float |};
                  {| pii_type := CUSTOM; value := PStr "x"; start := PInt 0;
                     end_ := PInt 0; confidence := 0.95%float |} ];
              raw_response := Some sample_guardrail_response;
              model_used := Some "bedrock-guardrails" |}.
Proof.
  apply (bedrock_one_record_per_entity "Contact John Smith" sample_guardrail_response
           sample_output sample_assessment sample_policy sample_entities
           eq_refl eq_refl eq_refl eq_refl).
  repeat constructor; eexists; reflexivity.
Defined.

(** The outputs of a response are handled one after the other: a response
    whose outputs are those of one response followed by those of another
    gives the matches of the first followed by those of the second, when the
    parser returns on both. *)
Theorem bedrock_outputs_concat (T : string) (r1 r2 r12 : dict) (outs1 outs2 : list pyval)
    (res1 res2 : GuardResult) :
  Py.dict_get r1 "outputs" (PList []) = PList outs1 ->
  Py.dict_get r2 "outputs" (PList []) = PList outs2 ->
  Py.dict_get r12 "outputs" (PList []) = PList (outs1 ++ outs2) ->
  BedrockGuard._parse_response T r1 = Return res1 ->
  BedrockGuard._parse_response T r2 = Return res2 ->
  BedrockGuard._parse_response T r12
  = Return {| matches := (matches res1 ++ matches res2)%list;
              raw_response := Some r12;
              model_used := Some "bedrock-guardrails" |}.
Proof.
  intros H1 H2 H12. unfold BedrockGuard._parse_response, bind, eval.
  rewrite H1, H2, H12. simpl.
  destruct (for_each outs1 _ _) as [[[]|e1] l1] eqn:E1; [|discriminate].
  destruct (for_each outs2 _ _) as [[[]|e2] l2] eqn:E2; [|discriminate].
  intros [= <-] [= <-]. simpl.
  rewrite (for_each_concat BedrockGuard.output_body outs1 outs2 l1 l2
             bedrock_output_framed E1 E2).
  reflexivity.
Qed.

Lemma bedrock_outputs_concat_witness :
  BedrockGuard._parse_response "Contact John Smith"
    [("outputs", PList [PDict sample_output; PDict sample_output_email])]
  = Return {| matches :=
                [ {| pii_type := NAME; value := PStr "John Smith"; start := PInt 0;
                     end_ := PInt 0; confidence := 0.95%float |};
                  {| pii_type := CUSTOM; value := PStr "x"; start := PInt 0;
                     end_ := PInt 0; confidence := 0.95%float |};
                  {| pii_type := EMAIL; value := PStr "john@example.com"; start := PInt 0;
                     end_ := PInt 0; confidence := 0.95%float |} ];
              raw_response :=
                Some [("outputs", PList [PDict sample_output; PDict sample_output_email])];
              model_used := Some "bedrock-guardrails" |}.
Proof.
  apply (bedrock_outputs_concat "Contact John Smith"
           [("outputs", PList [PDict sample_output])]
           [("outputs", PList [PDict sample_output_email])]
           [("outputs", PList [PDict sample_output; PDict sample_output_email])]
           [PDict sample_output] [PDict sample_output_email]
           {| matches :=
                [ {| pii_type := NAME; value := PStr "John Smith"; start := PInt 0;
                     end_ := PInt 0; confidence := 0.95%float |};
                  {| pii_type := CUSTOM; value := PStr "x"; start := PInt 0;
                     end_ := PInt 0; confidence := 0.95%float |} ];
              raw_response := Some [("outputs", PList [PDict sample_output])];
              model_used := Some "bedrock-guardrails" |}
           {| matches :=
                [ {| pii_type := EMAIL; value := PStr "john@example.com"; start := PInt 0;
                     end_ := PInt 0; confidence := 0.95%float |} ];
              raw_response := Some [("outputs", PList [PDict sample_output_email])];
              model_used := Some "bedrock-guardrails" |});
    reflexivity.
Defined.

(** ** The analyzer-library backend *)

(** [detect] turns the results of the analyzer into records one for one and
    in order, never raises, and returns them without a raw response under
    the model name "presidio". *)
Theorem presidio_detect_maps_results (self : PresidioGuard.instance) (text : string) :
  PresidioGuard.detect self text
  = Return {| matches := map (presidio_match text)
                           (PresidioGuard.analyzer self text (PresidioGuard.language self));
              raw_response := None;
              model_used := Some "presidio" |}.
Proof.
  unfold PresidioGuard.detect. cbv zeta.
  assert (G : forall results ms,
             for_each results (PresidioGuard.loop_body text) ms
             = (Return tt, (ms ++ map (presidio_match text) results)%list)).
  { induction results as [|r results IH]; intros ms; simpl.
    - unfold ret. now rewrite app_nil_r.
    - unfold bind at 1. unfold PresidioGuard.loop_body at 1, bind, eval, append. simpl.
      rewrite IH. now rewrite <- app_assoc. }
  rewrite G. reflexivity.
Qed.

(** The offsets of a result are trusted.  When they lie in the text
    ([0 <= start <= end <= len(text)]) the record is located: its value is
    the [end - start] characters at [start], so a search for the value finds
    it at [start] or before.  When the end lies beyond the text the value is
    cut at the end of the text and is shorter than the span the record
    carries. *)
Theorem presidio_trusted_offsets (text : string) (r : RecognizerResult.t) :
  0 <= RecognizerResult.start r <= RecognizerResult.end_ r ->
  (RecognizerResult.end_ r <= Z.of_nat (String.length text) ->
   located text (presidio_match text r)
   /\ 0 <= Py.find text (Py.slice text (RecognizerResult.start r) (RecognizerResult.end_ r))
        <= RecognizerResult.start r)
  /\ (RecognizerResult.start r <= Z.of_nat (String.length text) < RecognizerResult.end_ r ->
      Z.of_nat (String.length (Py.slice text (RecognizerResult.start r)
                                        (RecognizerResult.end_ r)))
      = Z.of_nat (String.length text) - RecognizerResult.start r
      /\ Z.of_nat (String.length text) - RecognizerResult.start r
         < RecognizerResult.end_ r - RecognizerResult.start r).
Proof.
  intros Hse. split.
  - intros He. destruct (slice_inside text _ _ Hse He) as [Hocc Hlen].
    split.
    + exists (Py.slice text (RecognizerResult.start r) (RecognizerResult.end_ r)),
        (RecognizerResult.start r).
      simpl. rewrite Hlen.
      replace (RecognizerResult.start r + (RecognizerResult.end_ r - RecognizerResult.start r))
        with (RecognizerResult.end_ r) by lia.
      repeat split; auto; lia.
    + destruct (find_from_spec (Py.slice text (RecognizerResult.start r)
                                         (RecognizerResult.end_ r)) text 0)
        as [[_ N] | (k & E & Ok & Mk)].
      * elim (N _ Hocc).
      * unfold Py.find. specialize (Mk _ Hocc).
        pose proof (occurs_at_nonneg _ _ _ Ok). lia.
  - intros [Hs He]. split; [|lia].
    unfold Py.slice. cbv zeta.
    rewrite (slice_bound_inside _ (RecognizerResult.start r)) by lia.
    assert (Hb : Py.slice_bound (Z.of_nat (String.length text)) (RecognizerResult.end_ r)
                 = Z.of_nat (String.length text)).
    { unfold Py.slice_bound. destruct (Z.ltb_spec (RecognizerResult.end_ r) 0); lia. }
    rewrite Hb.
    destruct (substring_split (Z.to_nat (RecognizerResult.start r))
                (Z.to_nat (Z.of_nat (String.length text) - RecognizerResult.start r))
                text ltac:(lia)) as (pre & post & _ & _ & Ls).
    rewrite Ls. lia.
Qed.

Lemma presidio_trusted_offsets_witness :
  located "Contact John Smith"
    (presidio_match "Contact John Smith"
       {| RecognizerResult.entity_type := "PERSON"; RecognizerResult.start := 8;
          RecognizerResult.end_ := 18; RecognizerResult.score := 0.85%float |}).
Proof.
  apply (proj1 (presidio_trusted_offsets "Contact John Smith"
                  {| RecognizerResult.entity_type := "PERSON"; RecognizerResult.start := 8;
                     RecognizerResult.end_ := 18; RecognizerResult.score := 0.85%float |}
                  ltac:(simpl; lia))).
  simpl. lia.
Defined.

(** A check of [ends_with] that can be run: a string that [rstrip] leaves
    as it is does not end with the character. *)
Lemma not_ends_with_check s c : Py.rstrip s c = s -> ~ ends_with s c.
Proof. intros E H. rewrite <- E in H. now apply rstrip_no_trailing in H. Qed.

(** ** The local-model instance *)

(** The constructor removes the slashes at the end of the base address, all
    of them and nothing else: the stored address does not end with a slash,
    the given one is the stored one followed by slashes only, and an address
    without a slash at its end is stored as it is.  So the address [detect]
    posts to has a single slash before [api/generate]. *)
Theorem llama_init_base_url (base_url model : string) :
  let self := LlamaGuard.__init__ base_url model in
  ~ ends_with (LlamaGuard.base_url self) "/"
  /\ (exists k, base_url = LlamaGuard.base_url self ++ repeat_char "/" k)
  /\ (~ ends_with base_url "/" -> LlamaGuard.base_url self = base_url)
  /\ LlamaGuard.__init__ (LlamaGuard.base_url self) model = self
  /\ LlamaGuard.model self = model.
Proof.
  simpl. split; [apply rstrip_no_trailing|]. split; [apply rstrip_split|].
  split; [apply rstrip_fixed|]. split; [|reflexivity].
  unfold LlamaGuard.__init__. f_equal. apply rstrip_fixed, rstrip_no_trailing.
Qed.

Lemma llama_init_base_url_witness :
  LlamaGuard.generate_url (LlamaGuard.__init__ "http://localhost:11434" "llama-guard3")
  = "http://localhost:11434/api/generate".
Proof.
  unfold LlamaGuard.generate_url.
  rewrite (proj1 (proj2 (proj2 (llama_init_base_url "http://localhost:11434" "llama-guard3")))).
  - reflexivity.
  - apply not_ends_with_check. reflexivity.
Defined.

(** ** The type tables *)

Lemma table_get_in {A : Type} (table : list (string * A)) key default :
  In (table_get table key default) (default :: map snd table).
Proof.
  induction table as [|[k v] table IH]; simpl; [now left|].
  destruct (String.eqb k key); [right; now left|].
  destruct IH as [E|Hin]; [now left | right; now right].
Qed.

(** The table of the hosted-LLM parser is a part of the table of the
    local-model parser: a type string that the hosted-LLM mapping knows (maps
    to a category other than [CUSTOM]) gets the same category from the
    local-model mapping. *)
Theorem openai_types_known_to_llama (type_str : pyval) (c : PIIType) :
  OpenAIGuard._map_type type_str = Return c ->
  c <> CUSTOM ->
  LlamaGuard._map_type type_str = Return c.
Proof.
  destruct type_str as [| | | |s| |]; try discriminate.
  unfold OpenAIGuard._map_type, LlamaGuard._map_type, OpenAIGuard.type_map,
    LlamaGuard.type_map.
  generalize (Py.lower s). intros k. cbn [table_get].
  repeat match goal with
         | |- context [String.eqb ?x k] => destruct (String.eqb_spec x k) as [<-|_]
         end; cbn; intros [= <-] Hc; try reflexivity; now elim Hc.
Qed.

Lemma openai_types_known_to_llama_witness :
  LlamaGuard._map_type (PStr "Credit_Card") = Return CREDIT_CARD.
Proof.
  apply openai_types_known_to_llama; [reflexivity | discriminate].
Defined.

(** The categories each backend can report.  The two JSON parsers never map
    a type to driver-license, passport or bank-account, whatever the
    backend called it; the managed-cloud and the analyzer-library mapping
    reach every category. *)
Theorem categories_reached (c : PIIType) :
  (forall type_str,
     (LlamaGuard._map_type type_str = Return c \/ OpenAIGuard._map_type type_str = Return c) ->
     c <> DRIVER_LICENSE /\ c <> PASSPORT /\ c <> BANK_ACCOUNT)
  /\ (exists s, BedrockGuard._map_bedrock_type (PStr s) = Return c)
  /\ (exists s, PresidioGuard._map_presidio_type (PStr s) = Return c).
Proof.
  split; [|split].
  - intros type_str H.
    assert (Hin : In c [CUSTOM; NAME; EMAIL; PHONE; ADDRESS; SSN; CREDIT_CARD; DATE;
                        IP_ADDRESS]).
    { destruct type_str as [| | | |s| |]; try (destruct H; discriminate).
      destruct H as [[= <-] | [= <-]].
      - pose proof (table_get_in LlamaGuard.type_map (Py.lower s) CUSTOM) as Hin.
        simpl in Hin. simpl. intuition auto.
      - pose proof (table_get_in OpenAIGuard.type_map (Py.lower s) CUSTOM) as Hin.
        simpl in Hin. simpl. intuition auto. }
    simpl in Hin.
    repeat (destruct Hin as [<-|Hin]; [repeat split; discriminate|]). destruct Hin.
  - destruct c;
      [ exists "NAME" | exists "EMAIL" | exists "PHONE" | exists "ADDRESS" | exists "SSN"
      | exists "CREDIT_DEBIT_NUMBER" | exists "DATE_TIME" | exists "IP_ADDRESS"
      | exists "DRIVER_ID" | exists "PASSPORT_NUMBER" | exists "BANK_ACCOUNT_NUMBER"
      | exists "UNKNOWN" ]; reflexivity.
  - destruct c;
      [ exists "PERSON" | exists "EMAIL_ADDRESS" | exists "PHONE_NUMBER" | exists "LOCATION"
      | exists "US_SSN" | exists "CREDIT_CARD" | exists "DATE_TIME" | exists "IP_ADDRESS"
      | exists "US_DRIVER_LICENSE" | exists "US_PASSPORT" | exists "IBAN_CODE"
      | exists "UNKNOWN" ]; reflexivity.
Qed.

(** ** Case of provider names *)

Lemma lower_char_idempotent c : Py.lower_char (Py.lower_char c) = Py.lower_char c.
Proof. destruct c as [[] [] [] [] [] [] [] []]; reflexivity. Qed.

Lemma lower_idempotent s : Py.lower (Py.lower s) = Py.lower s.
Proof.
  induction s as [|c s IH]; simpl; [reflexivity|].
  now rewrite lower_char_idempotent, IH.
Qed.

(** The selector does not see the case of a provider name: two names with
    the same lower-cased form are treated alike (the same [None], the same
    class to construct, or the same text of the error), and a name is treated
    as its lower-cased form. *)
Theorem get_guard_ignores_case (provider : string) :
  (forall other, Py.lower other = Py.lower provider -> get_guard other = get_guard provider)
  /\ get_guard (Py.lower provider) = get_guard provider.
Proof.
  split.
  - intros other E. unfold get_guard. now rewrite E.
  - unfold get_guard. now rewrite lower_idempotent.
Qed.

Lemma get_guard_ignores_case_witness :
  get_guard "OpenAI" = get_guard "openai".
Proof.
  apply (proj1 (get_guard_ignores_case "openai") "OpenAI"). reflexivity.
Defined.
